(** * Topic visibility policies: the views of zerver/views/user_topics.py

    A shallow embedding of the four views of [zerver/views/user_topics.py]
    ([mute_topic], [unmute_topic], [update_muted_topic], [update_user_topic]
    and [get_stream_topic_counts]) over an explicit database state, and the
    properties of the visibility-policy state machine proved on it.

    The database is a record of tables.  A view is a computation in a small
    state-and-exception monad: it takes the database and returns an outcome
    (a value or a raised error) together with the database it leaves behind.
    The database is returned after a raised error as well, since nothing in a
    Python exception rolls back a write that happened before it. *)

From Stdlib Require Import ZArith Ascii.
From stdpp Require Import base gmap sets list strings.

Local Open Scope Z_scope.

(** ** Rows of the tables the views read and write *)

(** A [Stream] object as a view holds it. *)
Record Stream := mkStream {
  id : Z;
  name : string;
  recipient_id : Z;
}.

(** A row of the [Stream] table without its primary key: the table is keyed
    by it, so that no two rows share an id. *)
Record StreamRow := mkStreamRow {
  row_name : string;
  row_recipient_id : Z;
}.

(** The columns of [Message] that [get_stream_topic_counts] filters on and
    projects. *)
Record Message := mkMessage {
  msg_recipient_id : Z;
  is_channel_message : bool;
  subject : string;
}.

Record UserProfile := mkUserProfile {
  user_id : Z;
}.

Record Subscription := mkSubscription {
  sub_user_id : Z;
  sub_stream_id : Z;
}.

(** A row of [UserTopic]: one override of one user for one topic of one
    stream.  [visibility_policy] holds the integer code of the policy. *)
Record UserTopic := mkUserTopic {
  ut_user_profile_id : Z;
  ut_stream_id : Z;
  topic_name : string;
  visibility_policy : Z;
  last_updated : Z;
}.

Global Instance Stream_eq_dec : EqDecision Stream.
Proof. solve_decision. Defined.
Global Instance StreamRow_eq_dec : EqDecision StreamRow.
Proof. solve_decision. Defined.
Global Instance Message_eq_dec : EqDecision Message.
Proof. solve_decision. Defined.
Global Instance Subscription_eq_dec : EqDecision Subscription.
Proof. solve_decision. Defined.
Global Instance UserTopic_eq_dec : EqDecision UserTopic.
Proof. solve_decision. Defined.

(** ** [UserTopic.VisibilityPolicy] *)

Module VisibilityPolicy.

(** Modelled from the spec: the [IntegerChoices] declaration of
    [UserTopic.VisibilityPolicy] is in [zerver/models], which is not among
    the sources.  The four members are the ones the spec lists, numbered in
    the order it lists them. *)
Definition INHERIT : Z := 0.
Definition MUTED : Z := 1.
Definition UNMUTED : Z := 2.
Definition FOLLOWED : Z := 3.

(** [UserTopic.VisibilityPolicy.values] *)
Definition values : list Z := [INHERIT; MUTED; UNMUTED; FOLLOWED].

End VisibilityPolicy.

(** ** Stream references, resolution modes, errors, events *)

Inductive StreamRef :=
  | ById (stream_id : Z)
  | ByName (stream_name : string).

Inductive Mode :=
  | Lookup
  | RemovalLookup (error : string).

(** The failures of the spec's taxonomy, and the [AssertionError] of the two
    [assert] statements of the source. *)
Inductive Error :=
  | AmbiguousOrMissingStreamReference
  | StreamNotFound
  | AccessDenied
  | NoOverrideToRemove (message : string)
  | InvalidPolicyValue
  | AssertionError.

(** What a collaborator did, in the order it happened: a stream resolution
    (whatever its outcome) or a write to the override table. *)
Inductive Event :=
  | EvResolve (user : Z) (ref : StreamRef) (mode : Mode)
  | EvSetPolicy (user : Z) (stream_id : Z) (topic : string) (policy : Z)
      (at_time : Z).

Global Instance StreamRef_eq_dec : EqDecision StreamRef.
Proof. solve_decision. Defined.
Global Instance Mode_eq_dec : EqDecision Mode.
Proof. solve_decision. Defined.
Global Instance Error_eq_dec : EqDecision Error.
Proof. solve_decision. Defined.
Global Instance Event_eq_dec : EqDecision Event.
Proof. solve_decision. Defined.

Definition is_resolve (e : Event) : bool :=
  match e with EvResolve _ _ _ => true | EvSetPolicy _ _ _ _ _ => false end.

Definition is_mutation (e : Event) : bool :=
  match e with EvResolve _ _ _ => false | EvSetPolicy _ _ _ _ _ => true end.

(** ** The database *)

(** [streams] is keyed by the primary key of [Stream].  [can_access] is the
    capability check of stream access, which the views treat as opaque.
    [clock] is what [timezone_now()] reads.  [log] is the trace of
    collaborator calls. *)
Record DB := mkDB {
  streams : gmap Z StreamRow;
  subscriptions : list Subscription;
  can_access : Z → Z → bool;
  messages : list Message;
  user_topics : list UserTopic;
  clock : Z;
  log : list Event;
}.

Definition set_user_topics (rows : list UserTopic) (db : DB) : DB :=
  mkDB (streams db) (subscriptions db) (can_access db) (messages db)
       rows (clock db) (log db).

Definition add_log (e : Event) (db : DB) : DB :=
  mkDB (streams db) (subscriptions db) (can_access db) (messages db)
       (user_topics db) (clock db) (log db ++ [e]).

Definition set_access (f : Z → Z → bool) (subs : list Subscription) (db : DB)
    : DB :=
  mkDB (streams db) subs f (messages db) (user_topics db) (clock db) (log db).

(** ** The monad of views *)

Inductive Outcome (A : Type) :=
  | Ok (a : A)
  | Raise (e : Error).
Arguments Ok {A} a.
Arguments Raise {A} e.

Definition M (A : Type) : Type := DB → Outcome A * DB.

Global Instance M_ret : MRet M := λ A (a : A) db, (Ok a, db).

Global Instance M_bind : MBind M := λ A B (k : A → M B) (m : M A) db,
  match m db with
  | (Ok a, db') => k a db'
  | (Raise e, db') => (Raise e, db')
  end.

Definition raise {A} (e : Error) : M A := λ db, (Raise e, db).

Definition failed {A} (o : Outcome A) : bool :=
  match o with Ok _ => false | Raise _ => true end.

(** [timezone_now()] *)
Definition timezone_now : M Z := λ db, (Ok (clock db), db).

(** ** The responses of a view *)

(** The [data] of [get_stream_topic_counts]. *)
Record TopicCounts := mkTopicCounts {
  data_stream_id : Z;
  total_topics : nat;
  followed_topics : nat;
}.

(** [json_success(request)] carries no data, [json_success(request, data=d)]
    carries [d]; [json_error(msg)] is the error response with that message. *)
Inductive HttpResponse :=
  | json_success (data : option TopicCounts)
  | json_error (msg : string).

Global Instance TopicCounts_eq_dec : EqDecision TopicCounts.
Proof. solve_decision. Defined.
Global Instance HttpResponse_eq_dec : EqDecision HttpResponse.
Proof. solve_decision. Defined.

(** ** The object managers of the tables *)

Definition to_Stream (key : Z) (row : StreamRow) : Stream :=
  mkStream key (row_name row) (row_recipient_id row).

(** [Stream.objects.get(id=stream_id)] inside [try ... except
    Stream.DoesNotExist]: the row with that primary key, or [None] when the
    exception is caught. *)
Definition Stream_objects_get (stream_id : Z) : M (option Stream) :=
  λ db, (Ok (to_Stream stream_id <$> streams db !! stream_id), db).

(** [Message.objects.filter(recipient_id=..., is_channel_message=True)
      .values_list("subject", flat=True).distinct()]:
    the subjects of the selected rows, each one once. *)
Definition Message_distinct_subjects (recipient : Z) : M (list string) :=
  λ db,
  (Ok (remove_dups
         (subject <$>
            filter (λ m, msg_recipient_id m = recipient
                         ∧ is_channel_message m = true)
                   (messages db))),
   db).

(** The rows selected by [UserTopic.objects.filter(user_profile=...,
      stream=..., visibility_policy=..., topic_name__in=names)]. *)
Definition UserTopic_filter (rows : list UserTopic) (user_profile : UserProfile)
    (stream : Stream) (policy : Z) (names : list string) : list UserTopic :=
  filter (λ r, ut_user_profile_id r = user_id user_profile
               ∧ ut_stream_id r = id stream
               ∧ visibility_policy r = policy
               ∧ topic_name r ∈ names)
         rows.

(** [UserTopic.objects.filter(...).count()] *)
Definition UserTopic_filter_count (user_profile : UserProfile)
    (stream : Stream) (policy : Z) (names : list string) : M nat :=
  λ db,
  (Ok (length (UserTopic_filter (user_topics db) user_profile stream policy
                 names)),
   db).

(** ** [get_stream_topic_counts] *)

Definition get_stream_topic_counts (user_profile : UserProfile)
    (stream_id : Z) : M HttpResponse :=
  found ← Stream_objects_get stream_id;
  match found with
  | None => mret (json_error "Invalid stream ID")
  | Some stream =>
      let recipient_id := recipient_id stream in
      topic_names ← Message_distinct_subjects recipient_id;
      let total_topics := length topic_names in
      followed_topics ←
        UserTopic_filter_count user_profile stream
          VisibilityPolicy.FOLLOWED topic_names;
      mret (json_success
              (Some (mkTopicCounts stream_id total_topics followed_topics)))
  end.

(** ** Topic identity *)

(** Modelled from the spec: the comparison of topic names of the [UserTopic]
    model is not among the sources.  The lower-case form of a letter. *)
Definition lower_ascii (a : ascii) : ascii :=
  let n := nat_of_ascii a in
  if ((65 <=? n) && (n <=? 90))%nat then ascii_of_nat (n + 32) else a.

(** Modelled from the spec: the name with its letters in lower case, the
    spec's insensitivity to case. *)
Fixpoint lower (s : string) : string :=
  match s with
  | EmptyString => EmptyString
  | String a s' => String (lower_ascii a) (lower s')
  end.

(** Modelled from the spec: the name without its leading whitespace. *)
Fixpoint lstrip (s : string) : string :=
  match s with
  | EmptyString => EmptyString
  | String a s' => if Ascii.is_space a then lstrip s' else s
  end.

(** Modelled from the spec: the name without its leading and trailing
    whitespace, the spec's insensitivity to surrounding whitespace. *)
Definition strip (s : string) : string :=
  String.rev (lstrip (String.rev (lstrip s))).

(** Modelled from the spec: the [UserTopic] model and its key are declared in
    [zerver/models], which is not among the sources.  The spec keys an
    override by the topic name up to case and to leading and trailing
    whitespace. *)
Definition topic_key (topic : string) : string := lower (strip topic).

(** Modelled from the spec: the composite key of an override row, the user,
    the stream and the topic name up to [topic_key]. *)
Definition row_key (r : UserTopic) : Z * Z * string :=
  (ut_user_profile_id r, ut_stream_id r, topic_key (topic_name r)).

(** The row is the override of that user for that topic of that stream. *)
Definition is_override_of (user stream_id : Z) (topic : string)
    (r : UserTopic) : Prop :=
  row_key r = (user, stream_id, topic_key topic).

Global Instance is_override_of_dec user stream_id topic r :
  Decision (is_override_of user stream_id topic r).
Proof. unfold is_override_of. apply _. Defined.

(** Modelled from the spec: the uniqueness constraint that the [UserTopic]
    model declares, at most one row per key. *)
Definition UserTopic_unique (rows : list UserTopic) : Prop :=
  NoDup (row_key <$> rows).

(** The override of a user for a topic, if there is one. *)
Definition get_override (rows : list UserTopic) (user stream_id : Z)
    (topic : string) : option UserTopic :=
  head (filter (is_override_of user stream_id topic) rows).

(** ** The collaborators of the views *)

(** Modelled from the spec: the lookup of the stream access helpers, which
    are not among the sources.  A reference denotes the stream of that
    primary key, or the stream of that name. *)
Definition get_stream (db : DB) (ref : StreamRef) : option Stream :=
  match ref with
  | ById stream_id => to_Stream stream_id <$> streams db !! stream_id
  | ByName stream_name =>
      head (filter (λ s, name s = stream_name)
                   ((λ kv, to_Stream kv.1 kv.2) <$> map_to_list (streams db)))
  end.

(** Modelled from the spec: the check of the removal lookup, which is not
    among the sources.  The source hands the lookup the user, the stream
    reference and the message, never the topic, so the check cannot depend
    on the topic being removed; it is the coarse check of the spec's
    reference behaviour, at the level of the stream: the user has some
    override in the stream. *)
Definition has_override_in (rows : list UserTopic) (user stream_id : Z)
    : Prop :=
  Exists (λ r, ut_user_profile_id r = user ∧ ut_stream_id r = stream_id) rows.

Global Instance has_override_in_dec rows user stream_id :
  Decision (has_override_in rows user stream_id).
Proof. unfold has_override_in. apply _. Defined.

(** Modelled from the spec: the stream access helpers of
    [zerver/lib/streams.py] are not among the sources.  This is the outcome
    of the spec's [resolve(user, ref, mode)].  [Lookup] finds the stream and
    checks the user's access to it, failing with [StreamNotFound] or
    [AccessDenied].  [RemovalLookup] resolves the same way and then requires
    an override of the user in that stream, failing with
    [NoOverrideToRemove] and the caller's message: the helper is not given
    the topic, so the check is at the level of the stream. *)
Definition resolve_outcome (db : DB) (user_profile : UserProfile)
    (ref : StreamRef) (mode : Mode) : Outcome Stream :=
  match get_stream db ref with
  | None => Raise StreamNotFound
  | Some stream =>
      if can_access db (user_id user_profile) (id stream) then
        match mode with
        | Lookup => Ok stream
        | RemovalLookup error =>
            if decide (has_override_in (user_topics db)
                         (user_id user_profile) (id stream))
            then Ok stream
            else Raise (NoOverrideToRemove error)
        end
      else Raise AccessDenied
  end.

(** A resolution reads the tables and writes none; it is recorded in the
    trace, whatever its outcome. *)
Definition resolve (user_profile : UserProfile) (ref : StreamRef)
    (mode : Mode) : M Stream :=
  λ db,
  (resolve_outcome db user_profile ref mode,
   add_log (EvResolve (user_id user_profile) ref mode) db).

(** Modelled from the spec: the second component of what
    [access_stream_by_id] and [access_stream_by_name] return, the
    subscription of the user to the stream when there is one. *)
Definition get_subscription (user_profile : UserProfile) (stream : Stream)
    : M (option Subscription) :=
  λ db,
  (Ok (head (filter (λ s, sub_user_id s = user_id user_profile
                          ∧ sub_stream_id s = id stream)
                    (subscriptions db))),
   db).

(** Modelled from the spec: [access_stream_by_id] of [zerver/lib/streams.py],
    the resolution by id in [Lookup] mode. *)
Definition access_stream_by_id (user_profile : UserProfile) (stream_id : Z)
    : M (Stream * option Subscription) :=
  stream ← resolve user_profile (ById stream_id) Lookup;
  sub ← get_subscription user_profile stream;
  mret (stream, sub).

(** Modelled from the spec: [access_stream_by_name] of
    [zerver/lib/streams.py], the resolution by name in [Lookup] mode. *)
Definition access_stream_by_name (user_profile : UserProfile)
    (stream_name : string) : M (Stream * option Subscription) :=
  stream ← resolve user_profile (ByName stream_name) Lookup;
  sub ← get_subscription user_profile stream;
  mret (stream, sub).

(** Modelled from the spec: [access_stream_to_remove_visibility_policy_by_id]
    of [zerver/lib/streams.py], the resolution by id in [RemovalLookup]
    mode with the caller's message. *)
Definition access_stream_to_remove_visibility_policy_by_id
    (user_profile : UserProfile) (stream_id : Z) (error : string) : M Stream :=
  resolve user_profile (ById stream_id) (RemovalLookup error).

(** Modelled from the spec:
    [access_stream_to_remove_visibility_policy_by_name] of
    [zerver/lib/streams.py], the resolution by name in [RemovalLookup] mode
    with the caller's message. *)
Definition access_stream_to_remove_visibility_policy_by_name
    (user_profile : UserProfile) (stream_name : string) (error : string)
    : M Stream :=
  resolve user_profile (ByName stream_name) (RemovalLookup error).

(** Modelled from the spec: [check_for_exactly_one_stream_arg] of
    [zerver/lib/streams.py] is not among the sources.  Both references or
    neither fail with [AmbiguousOrMissingStreamReference]. *)
Definition check_for_exactly_one_stream_arg (stream_id : option Z)
    (stream : option string) : M unit :=
  match stream_id, stream with
  | None, None => raise AmbiguousOrMissingStreamReference
  | Some _, Some _ => raise AmbiguousOrMissingStreamReference
  | _, _ => mret ()
  end.

(** Modelled from the spec: [check_int_in_validator] of
    [zerver/lib/typed_endpoint_validators.py] and the parsing of the
    [typed_endpoint] decorator are not among the sources.  A value outside
    the listed ones fails with [InvalidPolicyValue]. *)
Definition check_int_in_validator (possible_values : list Z) (value : Z)
    : M unit :=
  if decide (value ∈ possible_values) then mret ()
  else raise InvalidPolicyValue.

(** Modelled from the spec: the update in place of the spec's [setPolicy].
    The row takes the policy and the time of the write when it is the
    override of the key, and stays as it is otherwise. *)
Definition update_row (user stream_id : Z) (topic : string)
    (policy at_time : Z) (r : UserTopic) : UserTopic :=
  if decide (is_override_of user stream_id topic r)
  then mkUserTopic (ut_user_profile_id r) (ut_stream_id r) (topic_name r)
         policy at_time
  else r.

(** Modelled from the spec: the rows of the override table after the spec's
    [setPolicy].  INHERIT deletes the override of the key; another policy
    updates it in place, or adds a row under the topic name as given when
    there is none. *)
Definition set_policy_rows (rows : list UserTopic) (user stream_id : Z)
    (topic : string) (policy : Z) (at_time : Z) : list UserTopic :=
  if decide (policy = VisibilityPolicy.INHERIT) then
    filter (λ r, ¬ is_override_of user stream_id topic r) rows
  else if decide (Exists (is_override_of user stream_id topic) rows) then
    update_row user stream_id topic policy at_time <$> rows
  else rows ++ [mkUserTopic user stream_id topic policy at_time].

(** Modelled from the spec: [do_set_user_topic_visibility_policy] of
    [zerver/actions/user_topics.py] is not among the sources.  This is the
    spec's [setPolicy]: [INHERIT] deletes the override of the key, and it is
    no error when there is none; another policy updates the override in place
    or creates it.  [last_updated] defaults to the current time.  The call
    never fails. *)
Definition do_set_user_topic_visibility_policy (user_profile : UserProfile)
    (stream : Stream) (topic : string) (policy : Z)
    (last_updated : option Z) : M unit :=
  λ db,
  let at_time := default (clock db) last_updated in
  let rows := set_policy_rows (user_topics db) (user_id user_profile)
                (id stream) topic policy at_time in
  (Ok (),
   add_log (EvSetPolicy (user_id user_profile) (id stream) topic policy at_time)
     (set_user_topics rows db)).

(** ** The views *)

(** The views take their arguments as the [typed_endpoint] decorator hands
    them over: the integers parsed, [topic] within [MAX_TOPIC_NAME_LENGTH],
    [op] one of its two literals.  The [request] is only passed on to the
    response, and is left out.  The check that the annotation of
    [visibility_policy] asks for is the first step of [update_user_topic]. *)

Definition mute_topic (user_profile : UserProfile) (stream_id : option Z)
    (stream_name : option string) (topic_name : string) (date_muted : Z)
    : M unit :=
  '(stream, sub) ←
    match stream_name with
    | Some stream_name => access_stream_by_name user_profile stream_name
    | None =>
        match stream_id with
        | None => raise AssertionError
        | Some stream_id => access_stream_by_id user_profile stream_id
        end
    end;
  do_set_user_topic_visibility_policy user_profile stream topic_name
    VisibilityPolicy.MUTED (Some date_muted).

Definition unmute_topic (user_profile : UserProfile) (stream_id : option Z)
    (stream_name : option string) (topic_name : string) : M unit :=
  let error := "Topic is not muted" in
  stream ←
    match stream_name with
    | Some stream_name =>
        access_stream_to_remove_visibility_policy_by_name user_profile
          stream_name error
    | None =>
        match stream_id with
        | None => raise AssertionError
        | Some stream_id =>
            access_stream_to_remove_visibility_policy_by_id user_profile
              stream_id error
        end
    end;
  do_set_user_topic_visibility_policy user_profile stream topic_name
    VisibilityPolicy.INHERIT None.

(** [Literal["add", "remove"]] *)
Inductive Op := add | remove.

Definition update_muted_topic (user_profile : UserProfile)
    (stream_id : option Z) (stream : option string) (topic : string) (op : Op)
    : M HttpResponse :=
  check_for_exactly_one_stream_arg stream_id stream;;
  match op with
  | add =>
      date_muted ← timezone_now;
      mute_topic user_profile stream_id stream topic date_muted
  | remove => unmute_topic user_profile stream_id stream topic
  end;;
  mret (json_success None).

Definition update_user_topic (user_profile : UserProfile) (stream_id : Z)
    (topic : string) (visibility_policy : Z) : M HttpResponse :=
  check_int_in_validator VisibilityPolicy.values visibility_policy;;
  stream ←
    (if decide (visibility_policy = VisibilityPolicy.INHERIT) then
       let error := "Invalid channel ID" in
       access_stream_to_remove_visibility_policy_by_id user_profile stream_id
         error
     else
       '(stream, sub) ← access_stream_by_id user_profile stream_id;
       mret stream);
  do_set_user_topic_visibility_policy user_profile stream topic
    visibility_policy None;;
  mret (json_success None).

(** ** The topic counts, as the spec words them *)

(** The message was posted to the stream: it is a channel message addressed
    to the recipient of the stream. *)
Definition posted_to (stream : Stream) (m : Message) : Prop :=
  msg_recipient_id m = recipient_id stream ∧ is_channel_message m = true.

Global Instance posted_to_dec stream m : Decision (posted_to stream m).
Proof. unfold posted_to. apply _. Defined.

(** The set of distinct topic names among the messages posted to the
    stream. *)
Definition stream_topics (db : DB) (stream : Stream) : gset string :=
  list_to_set (subject <$> filter (posted_to stream) (messages db)).

(** The user has an override record of that policy in the stream whose
    stored topic name is exactly that name, letter for letter. *)
Definition has_policy_record (rows : list UserTopic) (user_profile : UserProfile)
    (stream : Stream) (policy : Z) (topic : string) : Prop :=
  Exists (λ r, ut_user_profile_id r = user_id user_profile
               ∧ ut_stream_id r = id stream
               ∧ visibility_policy r = policy
               ∧ topic_name r = topic)
         rows.

Global Instance has_policy_record_dec rows user_profile stream policy topic :
  Decision (has_policy_record rows user_profile stream policy topic).
Proof. unfold has_policy_record. apply _. Defined.

(** The topics of the stream that the user follows. *)
Definition followed_stream_topics (db : DB) (user_profile : UserProfile)
    (stream : Stream) : gset string :=
  filter (has_policy_record (user_topics db) user_profile stream
            VisibilityPolicy.FOLLOWED)
         (stream_topics db stream).

(** The user follows the topic, the override being looked up under the key
    of the override table, that is, up to case and surrounding whitespace. *)
Definition follows_under_key (rows : list UserTopic)
    (user_profile : UserProfile) (stream : Stream) (topic : string) : Prop :=
  match get_override rows (user_id user_profile) (id stream) topic with
  | Some r => visibility_policy r = VisibilityPolicy.FOLLOWED
  | None => False
  end.

Global Instance follows_under_key_dec rows user_profile stream topic :
  Decision (follows_under_key rows user_profile stream topic).
Proof.
  unfold follows_under_key.
  destruct (get_override rows _ _ topic); apply _.
Defined.

(** The claim that the payload counts the topics that the user follows
    under the key of the override table. *)
Definition topic_counts_up_to_topic_key : Prop :=
  ∀ db user_profile stream_id row,
    streams db !! stream_id = Some row →
    UserTopic_unique (user_topics db) →
    get_stream_topic_counts user_profile stream_id db =
      (Ok (json_success (Some
         (mkTopicCounts stream_id
            (size (stream_topics db (to_Stream stream_id row)))
            (size (filter
                     (follows_under_key (user_topics db) user_profile
                        (to_Stream stream_id row))
                     (stream_topics db (to_Stream stream_id row))))))),
       db).

(** No two rows of the override table share the user, the stream and the
    stored topic name.  The uniqueness of the key implies it. *)
Definition UserTopic_names_unique (rows : list UserTopic) : Prop :=
  NoDup ((λ r, (ut_user_profile_id r, ut_stream_id r, topic_name r))
           <$> rows).


(** ** Invocations *)

(** A call of one of the four operations that write overrides. *)
Inductive Command :=
  | CallMuteTopic (stream_id : option Z) (stream_name : option string)
      (topic_name : string) (date_muted : Z)
  | CallUnmuteTopic (stream_id : option Z) (stream_name : option string)
      (topic_name : string)
  | CallUpdateMutedTopic (stream_id : option Z) (stream : option string)
      (topic : string) (op : Op)
  | CallUpdateUserTopic (stream_id : Z) (topic : string)
      (visibility_policy : Z).

Definition invoke (user_profile : UserProfile) (c : Command)
    : M (option HttpResponse) :=
  match c with
  | CallMuteTopic stream_id stream_name topic_name date_muted =>
      mute_topic user_profile stream_id stream_name topic_name date_muted;;
      mret None
  | CallUnmuteTopic stream_id stream_name topic_name =>
      unmute_topic user_profile stream_id stream_name topic_name;;
      mret None
  | CallUpdateMutedTopic stream_id stream topic op =>
      response ← update_muted_topic user_profile stream_id stream topic op;
      mret (Some response)
  | CallUpdateUserTopic stream_id topic visibility_policy =>
      response ← update_user_topic user_profile stream_id topic
                   visibility_policy;
      mret (Some response)
  end.

(** The two ways an invocation can go, as the trace and the override table
    show them. *)
Definition went_wrong (user_profile : UserProfile) (db : DB)
    (out : Outcome (option HttpResponse) * DB) : Prop :=
  failed out.1 = true
  ∧ user_topics out.2 = user_topics db
  ∧ (log out.2 = log db
     ∨ ∃ ref mode,
         log out.2 = log db ++ [EvResolve (user_id user_profile) ref mode]).

Definition went_well (user_profile : UserProfile) (db : DB)
    (out : Outcome (option HttpResponse) * DB) : Prop :=
  failed out.1 = false
  ∧ ∃ ref mode stream_id topic policy at_time,
      log out.2
        = log db ++ [EvResolve (user_id user_profile) ref mode;
                     EvSetPolicy (user_id user_profile) stream_id topic policy
                       at_time]
      ∧ user_topics out.2
        = set_policy_rows (user_topics db) (user_id user_profile) stream_id
            topic policy at_time.

(** The reference that [mute_topic] and [unmute_topic] resolve: the name when
    it is given, else the id. *)
Definition stream_ref (stream_id : option Z) (stream_name : option string)
    : option StreamRef :=
  match stream_name with
  | Some stream_name => Some (ByName stream_name)
  | None => ById <$> stream_id
  end.

(** The claim that [unmute_topic] fails with [NoOverrideToRemove] whenever
    the stream resolves for the user and the user has no override for the
    topic in it. *)
Definition unmute_topic_rejects_missing_key : Prop :=
  ∀ db user_profile stream_id stream_name topic ref stream,
    stream_ref stream_id stream_name = Some ref →
    resolve_outcome db user_profile ref Lookup = Ok stream →
    get_override (user_topics db) (user_id user_profile) (id stream) topic
      = None →
    (unmute_topic user_profile stream_id stream_name topic db).1
      = Raise (NoOverrideToRemove "Topic is not muted").

(** ** Sample databases *)

Definition iago : UserProfile := mkUserProfile 7.

(** Two streams; iago may access the first and follows its topic b. *)
Definition sample_db : DB :=
  mkDB {[ 1 := mkStreamRow "general" 10; 2 := mkStreamRow "dev" 20 ]}
       [mkSubscription 7 1]
       (λ u s, bool_decide (u = 7 ∧ s = 1))
       [mkMessage 10 true "a"; mkMessage 10 true "b"; mkMessage 10 true "a";
        mkMessage 10 true "c"; mkMessage 20 true "z"]
       [mkUserTopic 7 1 "b" VisibilityPolicy.FOLLOWED 0]
       100 [].

(** One stream with one message under the topic Foo, and no override yet. *)
Definition foo_db : DB :=
  mkDB {[ 1 := mkStreamRow "general" 10 ]}
       [mkSubscription 7 1]
       (λ u s, true)
       [mkMessage 10 true "Foo"]
       []
       100 [].

(** [foo_db] after iago has followed the topic, spelling it foo. *)
Definition foo_followed_db : DB :=
  (update_user_topic iago 1 "foo" VisibilityPolicy.FOLLOWED foo_db).2.

(** ** Reading a response, and posting a message *)

(** The counts that a response carries, when it carries some. *)
Definition response_counts (o : Outcome HttpResponse) : option TopicCounts :=
  match o with
  | Ok (json_success (Some counts)) => Some counts
  | _ => None
  end.

(** The database after one more row of [Message]. *)
Definition add_message (m : Message) (db : DB) : DB :=
  mkDB (streams db) (subscriptions db) (can_access db) (messages db ++ [m])
       (user_topics db) (clock db) (log db).

(** The codes that an override row may hold: every code of the enum but
    INHERIT. *)
Definition stored_policies : list Z :=
  [VisibilityPolicy.MUTED; VisibilityPolicy.UNMUTED; VisibilityPolicy.FOLLOWED].

(** The FOLLOWED overrides of the user in the stream. *)
Definition followed_rows (rows : list UserTopic) (user_profile : UserProfile)
    (stream_id : Z) : list UserTopic :=
  filter (λ r, ut_user_profile_id r = user_id user_profile
               ∧ ut_stream_id r = stream_id
               ∧ visibility_policy r = VisibilityPolicy.FOLLOWED)
         rows.

(** What an invocation of a user leaves behind: the tables of streams,
    subscriptions and messages, the access check and the clock as they were,
    a longer trace, and an override table that is the old one or the old one
    after one write of a policy of the enum under a key of that user. *)
Definition effect_of_invocation (user_profile : UserProfile) (db db' : DB)
    : Prop :=
  ∃ rows' trace,
    db' = mkDB (streams db) (subscriptions db) (can_access db) (messages db)
               rows' (clock db) (log db ++ trace)
    ∧ (rows' = user_topics db
       ∨ ∃ stream_id topic policy at_time,
           policy ∈ VisibilityPolicy.values
           ∧ rows' = set_policy_rows (user_topics db) (user_id user_profile)
                       stream_id topic policy at_time).

(** A sequence of invocations, each by its own user, one after the other. *)
Definition invoke_all (calls : list (UserProfile * Command)) (db : DB) : DB :=
  foldl (λ db call, (invoke call.1 call.2 db).2) db calls.

(** [sample_db] with other overrides around: iago has one in the second
    stream and hamlet has one in the first, but iago has none in the
    first. *)
Definition elsewhere_db : DB :=
  set_user_topics
    [mkUserTopic 7 2 "z" VisibilityPolicy.MUTED 0;
     mkUserTopic 8 1 "b" VisibilityPolicy.MUTED 0]
    sample_db.

(** A second user, and a table in which a row is stored twice. *)
Definition hamlet : UserProfile := mkUserProfile 8.

Definition doubled_db : DB :=
  mkDB {[ 1 := mkStreamRow "general" 10 ]}
       []
       (λ u s, true)
       [mkMessage 10 true "a"]
       [mkUserTopic 7 1 "a" VisibilityPolicy.FOLLOWED 0;
        mkUserTopic 7 1 "a" VisibilityPolicy.FOLLOWED 0]
       100 [].

(** Unfolds the monad and the collaborators of a view. *)
Ltac run_view :=
  unfold access_stream_by_id, access_stream_by_name,
    access_stream_to_remove_visibility_policy_by_id,
    access_stream_to_remove_visibility_policy_by_name,
    do_set_user_topic_visibility_policy, get_subscription, timezone_now,
    resolve, raise;
  unfold mbind, M_bind, mret, M_ret; cbn.

(** * Properties *)

(** ** Counting *)

Section counting.
Context {A B C : Type}.

(** A list without duplicates under [f] has none under a projection [g]
    that separates whatever [f] identifies. *)
Lemma NoDup_fmap_coarser (f : A → B) (g : A → C) (l : list A) :
  (∀ x y, x ∈ l → y ∈ l → g x = g y → f x = f y) →
  NoDup (f <$> l) → NoDup (g <$> l).
Proof.
  induction l as [|x l IH]; intros Hfg Hnd; csimpl in *.
  - constructor.
  - apply NoDup_cons in Hnd as [Hx Hnd]. apply NoDup_cons. split.
    + intros (y & Hgy & Hy)%list_elem_of_fmap. apply Hx.
      apply list_elem_of_fmap. exists y. split; [|done].
      apply Hfg; [left | by right | done].
    + apply IH; [|done]. intros y z Hy Hz. apply Hfg; by right.
Qed.
End counting.

Lemma length_remove_dups_size (l : list string) :
  length (remove_dups l) = size (list_to_set (C := gset string) l).
Proof.
  rewrite <- (size_list_to_set (C := gset string) (remove_dups l))
    by apply NoDup_remove_dups.
  f_equal. apply set_eq. intros x.
  by rewrite !elem_of_list_to_set, elem_of_remove_dups.
Qed.

Lemma UserTopic_unique_sublist (rows rows' : list UserTopic) :
  rows' `sublist_of` rows → UserTopic_unique rows → UserTopic_unique rows'.
Proof.
  unfold UserTopic_unique. intros Hsub Hnd.
  eapply sublist_NoDup; [exact Hnd | by apply fmap_sublist].
Qed.

(** Among the overrides of one user in one stream, the stored topic names
    are pairwise distinct. *)
Lemma UserTopic_filter_NoDup_names rows user_profile stream policy names :
  UserTopic_unique rows →
  NoDup (topic_name <$> UserTopic_filter rows user_profile stream policy names).
Proof.
  intros Huniq. apply (NoDup_fmap_coarser row_key).
  - intros r1 r2 H1 H2 Hname. unfold UserTopic_filter in *.
    apply list_elem_of_filter in H1 as [(Hu1 & Hs1 & _) _].
    apply list_elem_of_filter in H2 as [(Hu2 & Hs2 & _) _].
    unfold row_key. by rewrite Hu1, Hu2, Hs1, Hs2, Hname.
  - eapply UserTopic_unique_sublist; [|done]. apply sublist_filter.
Qed.

Lemma UserTopic_filter_names_set db user_profile stream (names : list string) :
  (∀ t, t ∈ names ↔ t ∈ stream_topics db stream) →
  list_to_set (C := gset string)
    (topic_name <$> UserTopic_filter (user_topics db) user_profile stream
                      VisibilityPolicy.FOLLOWED names)
  = followed_stream_topics db user_profile stream.
Proof.
  intros Hnames. apply set_eq. intros t.
  unfold followed_stream_topics, UserTopic_filter, has_policy_record.
  rewrite elem_of_list_to_set, list_elem_of_fmap, elem_of_filter, Exists_exists.
  split.
  - intros (r & -> & (Hq & Hr)%list_elem_of_filter).
    destruct Hq as (Hu & Hs & Hp & Hin). split.
    + exists r. by repeat split.
    + by apply Hnames.
  - intros [(r & Hr & Hu & Hs & Hp & Ht) Hin]. exists r. split; [done|].
    apply list_elem_of_filter. split; [|done].
    repeat split; try done. rewrite Ht. by apply Hnames.
Qed.

Lemma distinct_subjects_spec db stream t :
  t ∈ remove_dups
        (subject <$>
           filter (λ m, msg_recipient_id m = recipient_id stream
                        ∧ is_channel_message m = true) (messages db))
  ↔ t ∈ stream_topics db stream.
Proof.
  unfold stream_topics. by rewrite elem_of_remove_dups, elem_of_list_to_set.
Qed.

(** The uniqueness of the key gives the uniqueness of the stored names. *)
Lemma UserTopic_unique_names_unique rows :
  UserTopic_unique rows → UserTopic_names_unique rows.
Proof.
  unfold UserTopic_unique, UserTopic_names_unique.
  apply NoDup_fmap_coarser. intros r1 r2 _ _ [= Hu Hs Hn].
  unfold row_key. by rewrite Hu, Hs, Hn.
Qed.

(** With unique stored names, the names of the selected overrides of one
    user in one stream are pairwise distinct. *)
Lemma UserTopic_filter_NoDup_stored_names rows user_profile stream policy
    names :
  UserTopic_names_unique rows →
  NoDup (topic_name <$> UserTopic_filter rows user_profile stream policy names).
Proof.
  intros Huniq.
  apply (NoDup_fmap_coarser
           (λ r, (ut_user_profile_id r, ut_stream_id r, topic_name r))).
  - intros r1 r2 H1 H2 Hname. unfold UserTopic_filter in *.
    apply list_elem_of_filter in H1 as [(Hu1 & Hs1 & _) _].
    apply list_elem_of_filter in H2 as [(Hu2 & Hs2 & _) _].
    by rewrite Hu1, Hu2, Hs1, Hs2, Hname.
  - unfold UserTopic_names_unique in Huniq.
    eapply sublist_NoDup; [exact Huniq|].
    apply fmap_sublist, sublist_filter.
Qed.

(** C1, as stated, fails.  The spec identifies the override of a topic up to
    case and surrounding whitespace, as [get_override] does.  In
    [foo_followed_db] the stream has the one topic Foo, the user's override
    under its key has policy FOLLOWED, and the payload reports 0 followed
    topics where the claim counts 1. *)
Lemma topic_counts_up_to_topic_key_fails : ¬ topic_counts_up_to_topic_key.
Proof.
  intros Hclaim.
  assert (Huniq : UserTopic_unique (user_topics foo_followed_db)).
  { apply (bool_decide_unpack _). vm_compute. reflexivity. }
  pose proof (Hclaim foo_followed_db iago 1 (mkStreamRow "general" 10)
                eq_refl Huniq) as Hout.
  apply (f_equal (λ o, followed_topics <$> response_counts o.1)) in Hout.
  vm_compute in Hout. discriminate Hout.
Qed.

(** C1, amended.  For a stream that [stream_id] resolves to, and an override
    table in which no two rows share the user, the stream and the stored
    topic name, [get_stream_topic_counts] answers with a success payload
    whose [total_topics] is the cardinality of the set of distinct topic
    names among the messages posted to the stream, and whose
    [followed_topics] is the number of topics of that set for which the user
    has an override record with policy FOLLOWED stored under exactly that
    name.  The database is left as it was. *)
Theorem get_stream_topic_counts_payload db user_profile stream_id row :
  streams db !! stream_id = Some row →
  UserTopic_names_unique (user_topics db) →
  get_stream_topic_counts user_profile stream_id db =
    (Ok (json_success (Some
       (mkTopicCounts stream_id
          (size (stream_topics db (to_Stream stream_id row)))
          (size (followed_stream_topics db user_profile
                   (to_Stream stream_id row)))))),
     db).
Proof.
  intros Hrow Huniq.
  unfold get_stream_topic_counts, Stream_objects_get,
    Message_distinct_subjects, UserTopic_filter_count.
  unfold mbind, M_bind, mret, M_ret. rewrite Hrow. cbn.
  do 5 f_equal.
  - apply length_remove_dups_size.
  - rewrite <- (UserTopic_filter_names_set db user_profile _ _
                  (distinct_subjects_spec db (to_Stream stream_id row))).
    rewrite size_list_to_set by by apply UserTopic_filter_NoDup_stored_names.
    by rewrite length_fmap.
Qed.

(** The payload of the spec's example: topics a, b and c, of which the user
    follows b. *)
Example get_stream_topic_counts_sample :
  (get_stream_topic_counts iago 1 sample_db).1
  = Ok (json_success (Some (mkTopicCounts 1 3 1))).
Proof. vm_compute. reflexivity. Qed.

Lemma sample_db_unique : UserTopic_unique (user_topics sample_db).
Proof. apply (bool_decide_unpack _). vm_compute. reflexivity. Qed.

Lemma get_stream_topic_counts_payload_witness :
  get_stream_topic_counts iago 1 sample_db =
    (Ok (json_success (Some
       (mkTopicCounts 1
          (size (stream_topics sample_db (to_Stream 1 (mkStreamRow "general" 10))))
          (size (followed_stream_topics sample_db iago
                   (to_Stream 1 (mkStreamRow "general" 10))))))),
     sample_db).
Proof.
  apply (get_stream_topic_counts_payload sample_db iago 1
           (mkStreamRow "general" 10)).
  - vm_compute. reflexivity.
  - apply (bool_decide_unpack _). vm_compute. reflexivity.
Defined.

(** ** The gate of [get_stream_topic_counts] *)

(** C8.  [get_stream_topic_counts] looks the stream up by id and by nothing
    else.  When no stream has that id the answer is the error response
    "Invalid stream ID", the stream-not-found failure, and carries no counts.
    When one has, the answer is a success payload for that id, whoever the
    user is: the outcome does not depend on the access check or on the
    subscriptions.  Nothing is written, and no access helper is called. *)
Theorem get_stream_topic_counts_existence_gate db user_profile stream_id :
  (get_stream_topic_counts user_profile stream_id db).2 = db
  ∧ match streams db !! stream_id with
    | None =>
        (get_stream_topic_counts user_profile stream_id db).1
          = Ok (json_error "Invalid stream ID")
    | Some _ =>
        ∃ counts,
          (get_stream_topic_counts user_profile stream_id db).1
            = Ok (json_success (Some counts))
          ∧ data_stream_id counts = stream_id
    end
  ∧ ∀ access subs,
      (get_stream_topic_counts user_profile stream_id
         (set_access access subs db)).1
      = (get_stream_topic_counts user_profile stream_id db).1.
Proof.
  unfold get_stream_topic_counts, Stream_objects_get,
    Message_distinct_subjects, UserTopic_filter_count.
  unfold mbind, M_bind, mret, M_ret. cbn.
  destruct (streams db !! stream_id) as [row|]; cbn; eauto.
Qed.

(** ** Topic names in the followed count *)

(** The followed count of a response, when it is a success payload. *)
Lemma get_stream_topic_counts_followed db user_profile stream_id row :
  streams db !! stream_id = Some row →
  get_stream_topic_counts user_profile stream_id db =
    (Ok (json_success (Some
       (mkTopicCounts stream_id
          (length (remove_dups
             (subject <$> filter (posted_to (to_Stream stream_id row))
                            (messages db))))
          (length (filter
             (λ r, ut_user_profile_id r = user_id user_profile
                   ∧ ut_stream_id r = stream_id
                   ∧ visibility_policy r = VisibilityPolicy.FOLLOWED
                   ∧ topic_name r ∈ stream_topics db (to_Stream stream_id row))
             (user_topics db)))))),
     db).
Proof.
  intros Hrow.
  unfold get_stream_topic_counts, Stream_objects_get,
    Message_distinct_subjects, UserTopic_filter_count, UserTopic_filter.
  unfold mbind, M_bind, mret, M_ret. rewrite Hrow. cbn.
  do 5 f_equal. f_equal. apply list_filter_iff. intros r.
  pose proof (distinct_subjects_spec db (to_Stream stream_id row)
                (topic_name r)) as Hspec.
  cbn in Hspec. by rewrite Hspec.
Qed.

(** The stream of [foo_followed_db] has one topic, Foo, which the user
    follows under the spelling foo; the followed count is 0. *)
Example get_stream_topic_counts_foo :
  user_topics foo_followed_db
    = [mkUserTopic 7 1 "foo" VisibilityPolicy.FOLLOWED 100]
  ∧ (get_stream_topic_counts iago 1 foo_followed_db).1
    = Ok (json_success (Some (mkTopicCounts 1 1 0))).
Proof. split; vm_compute; reflexivity. Qed.




(** ** The override table under [set_policy_rows] *)

Section store.
Variables (user stream_id : Z) (topic : string) (policy at_time : Z).

Local Abbreviation P := (is_override_of user stream_id topic).
Local Abbreviation upd := (update_row user stream_id topic policy at_time).
Local Abbreviation fresh := (mkUserTopic user stream_id topic policy at_time).

Lemma upd_key r : row_key (upd r) = row_key r.
Proof. unfold update_row. by destruct (decide (P r)). Qed.

Lemma fresh_is_override : P fresh.
Proof. reflexivity. Qed.

Lemma set_policy_rows_inherit rows :
  policy = VisibilityPolicy.INHERIT →
  set_policy_rows rows user stream_id topic policy at_time
  = filter (λ r, ¬ P r) rows.
Proof. intros ->. reflexivity. Qed.

Lemma set_policy_rows_update rows :
  policy ≠ VisibilityPolicy.INHERIT → Exists P rows →
  set_policy_rows rows user stream_id topic policy at_time = upd <$> rows.
Proof.
  intros Hp Hex. unfold set_policy_rows.
  destruct (decide (policy = VisibilityPolicy.INHERIT)); [done|].
  by destruct (decide (Exists _ rows)).
Qed.

Lemma set_policy_rows_create rows :
  policy ≠ VisibilityPolicy.INHERIT → ¬ Exists P rows →
  set_policy_rows rows user stream_id topic policy at_time
  = rows ++ [fresh].
Proof.
  intros Hp Hex. unfold set_policy_rows.
  destruct (decide (policy = VisibilityPolicy.INHERIT)); [done|].
  by destruct (decide (Exists _ rows)).
Qed.

(** Clearing leaves no override under the key. *)
Lemma get_override_cleared rows :
  get_override
    (set_policy_rows rows user stream_id topic VisibilityPolicy.INHERIT
       at_time)
    user stream_id topic
  = None.
Proof.
  unfold get_override, set_policy_rows.
  destruct (decide (VisibilityPolicy.INHERIT = VisibilityPolicy.INHERIT));
    [|done].
  apply head_None, elem_of_nil_inv. intros r.
  rewrite !list_elem_of_filter. tauto.
Qed.

(** After a set to another policy, every row under the key holds it. *)
Lemma set_policy_rows_holds rows r :
  policy ≠ VisibilityPolicy.INHERIT →
  r ∈ set_policy_rows rows user stream_id topic policy at_time → P r →
  visibility_policy r = policy ∧ last_updated r = at_time.
Proof.
  intros Hp Hr HP. destruct (decide (Exists P rows)) as [Hex|Hex].
  - rewrite set_policy_rows_update in Hr by done.
    apply list_elem_of_fmap in Hr as (r0 & -> & Hr0).
    unfold upd in *. by destruct (decide (P r0)).
  - rewrite set_policy_rows_create in Hr by done.
    apply elem_of_app in Hr as [Hr | ->%list_elem_of_singleton]; [|done].
    exfalso. apply Hex, Exists_exists. eauto.
Qed.

(** ... and there is one. *)
Lemma set_policy_rows_exists rows :
  policy ≠ VisibilityPolicy.INHERIT →
  Exists P (set_policy_rows rows user stream_id topic policy at_time).
Proof.
  intros Hp. destruct (decide (Exists P rows)) as [Hex|Hex].
  - rewrite set_policy_rows_update by done.
    apply Exists_exists in Hex as (r & Hr & HPr).
    apply Exists_exists. exists (upd r). split.
    + apply list_elem_of_fmap. eauto.
    + unfold P, is_override_of. by rewrite upd_key.
  - rewrite set_policy_rows_create by done.
    apply Exists_app. right. apply Exists_cons. left. apply fresh_is_override.
Qed.

Lemma get_override_set rows :
  policy ≠ VisibilityPolicy.INHERIT →
  ∃ r,
    get_override
      (set_policy_rows rows user stream_id topic policy at_time)
      user stream_id topic = Some r
    ∧ visibility_policy r = policy ∧ last_updated r = at_time.
Proof.
  intros Hp. unfold get_override.
  pose proof (set_policy_rows_exists rows Hp) as Hex.
  apply Exists_exists in Hex as (r0 & Hr0 & HP0).
  assert (Hin : r0 ∈ filter P
            (set_policy_rows rows user stream_id topic policy at_time))
    by by apply list_elem_of_filter.
  destruct (filter P _) as [|r l] eqn:Hf; [by apply elem_of_nil in Hin|].
  exists r. split; [done|].
  assert (Hr : r ∈ filter P
            (set_policy_rows rows user stream_id topic policy at_time))
    by (rewrite Hf; left).
  apply list_elem_of_filter in Hr as [HPr Hr].
  by eapply set_policy_rows_holds.
Qed.

(** The overrides under other keys stay as they are. *)
Lemma set_policy_rows_frame rows r :
  ¬ P r →
  r ∈ set_policy_rows rows user stream_id topic policy at_time ↔ r ∈ rows.
Proof.
  intros Hn. destruct (decide (policy = VisibilityPolicy.INHERIT)) as [Hp|Hp].
  { rewrite set_policy_rows_inherit by done.
    rewrite list_elem_of_filter. tauto. }
  destruct (decide (Exists P rows)) as [Hex|Hex].
  - rewrite set_policy_rows_update by done. rewrite list_elem_of_fmap. split.
    + intros (r0 & -> & Hr0). unfold upd in *.
      destruct (decide (P r0)) as [HP0|]; [|done].
      exfalso. apply Hn. unfold P, is_override_of in *. cbn. exact HP0.
    + intros Hr. exists r. split; [|done]. unfold upd.
      by destruct (decide (P r)).
  - rewrite set_policy_rows_create by done. rewrite elem_of_app.
    rewrite list_elem_of_singleton. split; [|tauto].
    intros [Hr | ->]; [done|]. destruct Hn. apply fresh_is_override.
Qed.

(** The key stays unique. *)
Lemma set_policy_rows_unique rows :
  UserTopic_unique rows →
  UserTopic_unique
    (set_policy_rows rows user stream_id topic policy at_time).
Proof.
  intros Hu. destruct (decide (policy = VisibilityPolicy.INHERIT)) as [Hp|Hp].
  { rewrite set_policy_rows_inherit by done.
    eapply UserTopic_unique_sublist; [apply sublist_filter | done]. }
  unfold UserTopic_unique in *.
  destruct (decide (Exists P rows)) as [Hex|Hex].
  - rewrite set_policy_rows_update by done.
    rewrite <- list_fmap_compose.
    erewrite list_fmap_ext; [exact Hu|]. intros i r _. cbn. apply upd_key.
  - rewrite set_policy_rows_create by done.
    rewrite fmap_app. apply NoDup_app. split; [done|]. split.
    + intros k Hk ->%list_elem_of_singleton.
      apply list_elem_of_fmap in Hk as (r & Hkey & Hr).
      apply Hex, Exists_exists. exists r. split; [done|].
      unfold P, is_override_of. by rewrite <- Hkey.
    + apply NoDup_singleton.
Qed.
End store.

Lemma get_override_None_not_exists rows user stream_id topic :
  get_override rows user stream_id topic = None →
  ¬ Exists (is_override_of user stream_id topic) rows.
Proof.
  unfold get_override. intros Hnone%head_None Hex.
  apply Exists_exists in Hex as (r & Hr & HP).
  assert (Hin : r ∈ filter (is_override_of user stream_id topic) rows)
    by by apply list_elem_of_filter.
  rewrite Hnone in Hin. by apply elem_of_nil in Hin.
Qed.

(** Clearing a key that has no override leaves the table as it is. *)
Lemma set_policy_rows_inherit_absent rows user stream_id topic at_time :
  ¬ Exists (is_override_of user stream_id topic) rows →
  set_policy_rows rows user stream_id topic VisibilityPolicy.INHERIT at_time
  = rows.
Proof.
  intros Hex.
  rewrite (set_policy_rows_inherit _ _ _ VisibilityPolicy.INHERIT) by done.
  induction rows as [|r rows IH]; [done|].
  rewrite filter_cons. rewrite decide_True.
  - f_equal. apply IH. intros H. apply Hex. by right.
  - intros HP. apply Hex. by left.
Qed.

(** ** The resolver *)


Lemma resolve_outcome_by_id db user_profile stream_id mode stream :
  resolve_outcome db user_profile (ById stream_id) mode = Ok stream →
  id stream = stream_id.
Proof.
  unfold resolve_outcome. cbn.
  destruct (streams db !! stream_id) as [row|]; [|done]. cbn.
  destruct (can_access db _ _); [|done].
  destruct mode as [|error].
  - by intros [= <-].
  - destruct (decide (has_override_in _ _ _)); [|done]. by intros [= <-].
Qed.

(** A removal lookup of a stream that the user may access and has no
    override in fails with the caller's message. *)
Lemma resolve_outcome_no_override db user_profile ref error stream :
  get_stream db ref = Some stream →
  can_access db (user_id user_profile) (id stream) = true →
  ¬ has_override_in (user_topics db) (user_id user_profile) (id stream) →
  resolve_outcome db user_profile ref (RemovalLookup error)
  = Raise (NoOverrideToRemove error).
Proof.
  intros Hs Ha Hn. unfold resolve_outcome. rewrite Hs, Ha.
  by destruct (decide (has_override_in _ _ _)).
Qed.

(** ** Validation of the arguments *)

(** The validator rejects a value outside the listed ones, and touches
    nothing. *)
Lemma check_int_in_validator_outside possible_values value db :
  value ∉ possible_values →
  check_int_in_validator possible_values value db
  = (Raise InvalidPolicyValue, db).
Proof.
  intros Hv. unfold check_int_in_validator.
  by destruct (decide (value ∈ possible_values)).
Qed.

(** C2.  A call of [update_user_topic] whose [visibility_policy] is not one
    of the codes of the enum fails with [InvalidPolicyValue] and leaves the
    database as it was: no override is written, and the trace gains no
    entry, so no stream was resolved before the failure. *)
Theorem update_user_topic_invalid_policy db user_profile stream_id topic
    visibility_policy :
  visibility_policy ∉ VisibilityPolicy.values →
  update_user_topic user_profile stream_id topic visibility_policy db
  = (Raise InvalidPolicyValue, db).
Proof.
  intros Hv. unfold update_user_topic.
  unfold mbind at 1, M_bind at 1.
  by rewrite (check_int_in_validator_outside _ _ _ Hv).
Qed.

Lemma update_user_topic_invalid_policy_witness :
  update_user_topic iago 1 "b" 9 sample_db = (Raise InvalidPolicyValue, sample_db).
Proof.
  apply (update_user_topic_invalid_policy sample_db iago 1 "b" 9).
  apply (bool_decide_unpack _). vm_compute. reflexivity.
Defined.

(** C7.  A call of [update_muted_topic] that gives both a stream id and a
    stream name, or neither, fails with [AmbiguousOrMissingStreamReference],
    whether [op] is add or remove, and leaves the database as it was: the
    trace gains no entry, so the failure comes before any lookup. *)
Theorem update_muted_topic_needs_one_reference db user_profile stream_id
    stream topic op :
  (is_Some stream_id ↔ is_Some stream) →
  update_muted_topic user_profile stream_id stream topic op db
  = (Raise AmbiguousOrMissingStreamReference, db).
Proof.
  intros Hboth. unfold update_muted_topic, check_for_exactly_one_stream_arg.
  destruct stream_id as [i|], stream as [n|]; try reflexivity.
  - destruct Hboth as [H _]. destruct H as [? [=]]. by eexists.
  - destruct Hboth as [_ H]. destruct H as [? [=]]. by eexists.
Qed.

Lemma update_muted_topic_needs_one_reference_witness :
  update_muted_topic iago (Some 1) (Some "general") "b" remove sample_db
  = (Raise AmbiguousOrMissingStreamReference, sample_db)
  ∧ update_muted_topic iago None None "b" add sample_db
    = (Raise AmbiguousOrMissingStreamReference, sample_db).
Proof.
  split.
  - apply (update_muted_topic_needs_one_reference sample_db iago (Some 1)
             (Some "general") "b" remove).
    split; intros _; eexists; reflexivity.
  - apply (update_muted_topic_needs_one_reference sample_db iago None None
             "b" add).
    split; intros [? [=]].
Defined.

(** ** Muting and unmuting *)

(** What [mute_topic] does once its reference is fixed. *)
Lemma mute_topic_resolved db user_profile stream_id stream_name topic
    date_muted ref :
  stream_ref stream_id stream_name = Some ref →
  mute_topic user_profile stream_id stream_name topic date_muted db
  = match resolve_outcome db user_profile ref Lookup with
    | Ok stream =>
        (Ok (),
         add_log (EvSetPolicy (user_id user_profile) (id stream) topic
                    VisibilityPolicy.MUTED date_muted)
           (set_user_topics
              (set_policy_rows (user_topics db) (user_id user_profile)
                 (id stream) topic VisibilityPolicy.MUTED date_muted)
              (add_log (EvResolve (user_id user_profile) ref Lookup) db)))
    | Raise e =>
        (Raise e, add_log (EvResolve (user_id user_profile) ref Lookup) db)
    end.
Proof.
  unfold stream_ref, mute_topic. intros Href.
  destruct stream_name as [n|]; [|destruct stream_id as [i|]];
    simplify_eq/=; run_view;
    by destruct (resolve_outcome db user_profile _ Lookup).
Qed.

(** What [unmute_topic] does once its reference is fixed. *)
Lemma unmute_topic_resolved db user_profile stream_id stream_name topic ref :
  stream_ref stream_id stream_name = Some ref →
  unmute_topic user_profile stream_id stream_name topic db
  = match resolve_outcome db user_profile ref
            (RemovalLookup "Topic is not muted") with
    | Ok stream =>
        (Ok (),
         add_log (EvSetPolicy (user_id user_profile) (id stream) topic
                    VisibilityPolicy.INHERIT (clock db))
           (set_user_topics
              (set_policy_rows (user_topics db) (user_id user_profile)
                 (id stream) topic VisibilityPolicy.INHERIT (clock db))
              (add_log (EvResolve (user_id user_profile) ref
                          (RemovalLookup "Topic is not muted")) db)))
    | Raise e =>
        (Raise e,
         add_log (EvResolve (user_id user_profile) ref
                    (RemovalLookup "Topic is not muted")) db)
    end.
Proof.
  unfold stream_ref, unmute_topic. intros Href.
  destruct stream_name as [n|]; [|destruct stream_id as [i|]];
    simplify_eq/=; run_view;
    by destruct (resolve_outcome db user_profile _ (RemovalLookup _)).
Qed.

(** C6.  A call of [mute_topic] that supplies a stream name or a stream id
    resolves the stream in [Lookup] mode, by name when a name is given and
    else by id.  On success the override of the user for the topic in that
    stream has policy MUTED and [last_updated] equal to [date_muted], and
    the trace gains the resolution followed by the write.  The call fails
    only where the resolver fails: its failure is the failure of the
    resolution, and then no override is written. *)
Theorem mute_topic_lookup_then_mute db user_profile stream_id stream_name
    topic date_muted :
  is_Some (stream_ref stream_id stream_name) →
  let out :=
    mute_topic user_profile stream_id stream_name topic date_muted db in
  let resolved ref :=
    match resolve_outcome db user_profile ref Lookup with
    | Raise e =>
        out = (Raise e, add_log (EvResolve (user_id user_profile) ref Lookup) db)
    | Ok stream =>
        out.1 = Ok ()
        ∧ log out.2
          = log db ++ [EvResolve (user_id user_profile) ref Lookup;
                       EvSetPolicy (user_id user_profile) (id stream) topic
                         VisibilityPolicy.MUTED date_muted]
        ∧ ∃ r,
            get_override (user_topics out.2) (user_id user_profile)
              (id stream) topic = Some r
            ∧ visibility_policy r = VisibilityPolicy.MUTED
            ∧ last_updated r = date_muted
    end in
  (∀ name, stream_name = Some name → resolved (ByName name))
  ∧ (∀ i, stream_name = None → stream_id = Some i → resolved (ById i))
  ∧ (∀ e, out.1 = Raise e →
       ∃ ref, stream_ref stream_id stream_name = Some ref
              ∧ resolve_outcome db user_profile ref Lookup = Raise e
              ∧ user_topics out.2 = user_topics db).
Proof.
  intros [ref0 Href0]. cbn zeta.
  assert (Hres : ∀ ref, stream_ref stream_id stream_name = Some ref →
    match resolve_outcome db user_profile ref Lookup with
    | Raise e =>
        mute_topic user_profile stream_id stream_name topic date_muted db
        = (Raise e, add_log (EvResolve (user_id user_profile) ref Lookup) db)
    | Ok stream =>
        (mute_topic user_profile stream_id stream_name topic date_muted db).1
        = Ok ()
        ∧ log (mute_topic user_profile stream_id stream_name topic date_muted
                 db).2
          = log db ++ [EvResolve (user_id user_profile) ref Lookup;
                       EvSetPolicy (user_id user_profile) (id stream) topic
                         VisibilityPolicy.MUTED date_muted]
        ∧ ∃ r,
            get_override
              (user_topics
                 (mute_topic user_profile stream_id stream_name topic
                    date_muted db).2)
              (user_id user_profile) (id stream) topic = Some r
            ∧ visibility_policy r = VisibilityPolicy.MUTED
            ∧ last_updated r = date_muted
    end).
  { intros ref Href. rewrite (mute_topic_resolved _ _ _ _ _ _ _ Href).
    destruct (resolve_outcome db user_profile ref Lookup) as [stream|e];
      [|done].
    cbn. split; [done|]. split; [by rewrite <- app_assoc|].
    by apply get_override_set. }
  split; [|split].
  - intros name ->. by apply Hres.
  - intros i -> ->. by apply Hres.
  - intros e He. exists ref0. split; [done|].
    rewrite (mute_topic_resolved _ _ _ _ _ _ _ Href0) in He |- *.
    destruct (resolve_outcome db user_profile ref0 Lookup) as [stream|e'];
      [done|].
    cbn in He. injection He as ->. by split.
Qed.

Lemma mute_topic_lookup_then_mute_witness :
  ((mute_topic iago None (Some "general") "c" 5 sample_db).1 = Ok ()
   ∧ ∃ r,
       get_override
         (user_topics (mute_topic iago None (Some "general") "c" 5 sample_db).2)
         7 1 "c" = Some r
       ∧ visibility_policy r = VisibilityPolicy.MUTED
       ∧ last_updated r = 5)
  ∧ ∃ ref,
      stream_ref (Some 2) None = Some ref
      ∧ resolve_outcome sample_db iago ref Lookup = Raise AccessDenied
      ∧ user_topics (mute_topic iago (Some 2) None "c" 5 sample_db).2
        = user_topics sample_db.
Proof.
  split.
  - assert (Href : is_Some (stream_ref None (Some "general")))
      by (eexists; reflexivity).
    pose proof (mute_topic_lookup_then_mute sample_db iago None
                  (Some "general") "c" 5 Href) as (H & _ & _).
    specialize (H "general" eq_refl).
    change (resolve_outcome sample_db iago (ByName "general") Lookup)
      with (Ok (A := Stream) (mkStream 1 "general" 10)) in H.
    destruct H as (H1 & _ & H2). split; assumption.
  - assert (Href : is_Some (stream_ref (Some 2) None))
      by (eexists; reflexivity).
    pose proof (mute_topic_lookup_then_mute sample_db iago (Some 2) None
                  "c" 5 Href) as (_ & _ & H).
    apply (H AccessDenied). vm_compute. reflexivity.
Defined.

(** The source calls the removal lookup with the user, the stream reference
    and the message.  No function of these and of the database tells a topic
    that has an override from one that has none: the check on the key of the
    override being removed is out of the reach of the lookup. *)
Lemma removal_lookup_cannot_read_topic
    (accepts : DB → UserProfile → StreamRef → string → bool) :
  ¬ ∀ db user_profile ref error topic stream,
      get_stream db ref = Some stream →
      accepts db user_profile ref error = true
      ↔ is_Some (get_override (user_topics db) (user_id user_profile)
                   (id stream) topic).
Proof.
  intros Hkey.
  assert (Hs : get_stream sample_db (ById 1) = Some (mkStream 1 "general" 10))
    by (vm_compute; reflexivity).
  pose proof (Hkey sample_db iago (ById 1) "Topic is not muted" "b" _ Hs)
    as [_ Hb].
  pose proof (Hkey sample_db iago (ById 1) "Topic is not muted"
                "never-muted" _ Hs) as [Hn _].
  destruct Hn as [r Hr].
  - apply Hb. eexists. vm_compute. reflexivity.
  - vm_compute in Hr. discriminate Hr.
Qed.

(** C5, as stated, fails.  In [sample_db] the stream resolves for the user,
    who has an override in it for the topic b and none for the topic
    never-muted; [unmute_topic] on never-muted does not fail. *)
Lemma unmute_topic_rejects_missing_key_fails :
  ¬ unmute_topic_rejects_missing_key.
Proof.
  intros Hclaim.
  pose proof (Hclaim sample_db iago (Some 1) None "never-muted" (ById 1)
                (mkStream 1 "general" 10)) as Hout.
  assert (Hfail : (unmute_topic iago (Some 1) None "never-muted" sample_db).1
                  = Raise (NoOverrideToRemove "Topic is not muted")).
  { apply Hout.
    - reflexivity.
    - vm_compute. reflexivity.
    - vm_compute. reflexivity. }
  vm_compute in Hfail. discriminate Hfail.
Qed.

(** C5, amended.  A call of [unmute_topic] that supplies a stream reference
    resolves the stream in [RemovalLookup] mode with the message "Topic is
    not muted".  A failure of the resolution is the failure of the call.
    The lookup is not given the topic: when the stream resolves for the user
    and the user has no override in it at all, the call fails with
    [NoOverrideToRemove] and that message, and nothing is written; when the
    lookup succeeds although the topic has no override, the call succeeds
    and the table stays as it is.  On success the override table is the one
    that setting the policy of the key to INHERIT gives, in which the user
    has no override for the topic in the stream. *)
Theorem unmute_topic_removal_lookup db user_profile stream_id stream_name
    topic ref :
  stream_ref stream_id stream_name = Some ref →
  let mode := RemovalLookup "Topic is not muted" in
  let out := unmute_topic user_profile stream_id stream_name topic db in
  match resolve_outcome db user_profile ref mode with
  | Raise e =>
      out = (Raise e, add_log (EvResolve (user_id user_profile) ref mode) db)
  | Ok stream =>
      out.1 = Ok ()
      ∧ log out.2
        = log db ++ [EvResolve (user_id user_profile) ref mode;
                     EvSetPolicy (user_id user_profile) (id stream) topic
                       VisibilityPolicy.INHERIT (clock db)]
      ∧ user_topics out.2
        = set_policy_rows (user_topics db) (user_id user_profile) (id stream)
            topic VisibilityPolicy.INHERIT (clock db)
      ∧ get_override (user_topics out.2) (user_id user_profile) (id stream)
          topic = None
  end
  ∧ (∀ stream,
       get_stream db ref = Some stream →
       can_access db (user_id user_profile) (id stream) = true →
       ¬ has_override_in (user_topics db) (user_id user_profile) (id stream) →
       out.1 = Raise (NoOverrideToRemove "Topic is not muted")
       ∧ user_topics out.2 = user_topics db)
  ∧ (∀ stream,
       resolve_outcome db user_profile ref mode = Ok stream →
       get_override (user_topics db) (user_id user_profile) (id stream) topic
         = None →
       out.1 = Ok () ∧ user_topics out.2 = user_topics db).
Proof.
  intros Href. cbn zeta.
  rewrite (unmute_topic_resolved _ _ _ _ _ _ Href). split; [|split].
  - destruct (resolve_outcome db user_profile ref _) as [stream|e]; [|done].
    cbn. split; [done|]. split; [by rewrite <- app_assoc|]. split; [done|].
    apply (get_override_cleared _ _ _ VisibilityPolicy.INHERIT).
  - intros stream Hs Ha Hn.
    by rewrite (resolve_outcome_no_override _ _ _ _ _ Hs Ha Hn).
  - intros stream -> Hnone. cbn. split; [done|].
    by apply set_policy_rows_inherit_absent, get_override_None_not_exists.
Qed.

Lemma unmute_topic_removal_lookup_witness :
  ((unmute_topic iago (Some 1) None "B" sample_db).1 = Ok ()
   ∧ user_topics (unmute_topic iago (Some 1) None "B" sample_db).2 = [])
  ∧ ((unmute_topic iago None (Some "general") "b" elsewhere_db).1
       = Raise (NoOverrideToRemove "Topic is not muted")
     ∧ user_topics (unmute_topic iago None (Some "general") "b" elsewhere_db).2
       = user_topics elsewhere_db)
  ∧ ((unmute_topic iago (Some 1) None "never-muted" sample_db).1 = Ok ()
     ∧ user_topics (unmute_topic iago (Some 1) None "never-muted" sample_db).2
       = user_topics sample_db).
Proof.
  split; [|split].
  - pose proof (unmute_topic_removal_lookup sample_db iago (Some 1) None "B"
                  (ById 1) eq_refl) as [H _].
    vm_compute in H. destruct H as (H1 & _ & H2 & _). split; assumption.
  - pose proof (unmute_topic_removal_lookup elsewhere_db iago None
                  (Some "general") "b" (ByName "general") eq_refl)
      as (_ & H & _).
    apply (H (mkStream 1 "general" 10)).
    + vm_compute. reflexivity.
    + reflexivity.
    + apply (bool_decide_unpack _). vm_compute. reflexivity.
  - pose proof (unmute_topic_removal_lookup sample_db iago (Some 1) None
                  "never-muted" (ById 1) eq_refl) as (_ & _ & H).
    apply (H (mkStream 1 "general" 10)).
    + vm_compute. reflexivity.
    + vm_compute. reflexivity.
Defined.

(** ** Setting an arbitrary policy *)

(** What [update_user_topic] does with a valid policy. *)
Lemma update_user_topic_resolved db user_profile stream_id topic
    visibility_policy :
  visibility_policy ∈ VisibilityPolicy.values →
  update_user_topic user_profile stream_id topic visibility_policy db
  = let mode :=
      if decide (visibility_policy = VisibilityPolicy.INHERIT)
      then RemovalLookup "Invalid channel ID" else Lookup in
    match resolve_outcome db user_profile (ById stream_id) mode with
    | Ok stream =>
        (Ok (json_success None),
         add_log (EvSetPolicy (user_id user_profile) stream_id topic
                    visibility_policy (clock db))
           (set_user_topics
              (set_policy_rows (user_topics db) (user_id user_profile)
                 stream_id topic visibility_policy (clock db))
              (add_log (EvResolve (user_id user_profile) (ById stream_id) mode)
                 db)))
    | Raise e =>
        (Raise e,
         add_log (EvResolve (user_id user_profile) (ById stream_id) mode) db)
    end.
Proof.
  intros Hv. unfold update_user_topic, check_int_in_validator.
  destruct (decide (visibility_policy ∈ VisibilityPolicy.values)) as [_|];
    [|done].
  destruct (decide (visibility_policy = VisibilityPolicy.INHERIT)) as [Hp|Hp];
    run_view;
    destruct (resolve_outcome db user_profile (ById stream_id) _)
      as [stream|err] eqn:Hres; try done;
    apply resolve_outcome_by_id in Hres; by subst.
Qed.

(** C4.  With the policy INHERIT, [update_user_topic] resolves the stream by
    id in [RemovalLookup] mode with the message "Invalid channel ID", and on
    success the user has no override for the topic in the stream.  With any
    other policy of the enum it resolves the stream by id in [Lookup] mode,
    and on success the override of the user for the topic has the requested
    policy and the current time as [last_updated].  The overrides under
    other keys stay as they are.  A failure of the resolution is the failure
    of the call. *)
Theorem update_user_topic_resolves_then_sets db user_profile stream_id topic
    policy :
  policy ∈ VisibilityPolicy.values →
  let out :=
    update_user_topic user_profile stream_id topic policy db in
  let resolved mode (post : list UserTopic → Prop) :=
    match resolve_outcome db user_profile (ById stream_id) mode with
    | Raise e =>
        out = (Raise e,
               add_log (EvResolve (user_id user_profile) (ById stream_id) mode)
                 db)
    | Ok _ =>
        out.1 = Ok (json_success None)
        ∧ log out.2
          = log db ++ [EvResolve (user_id user_profile) (ById stream_id) mode;
                       EvSetPolicy (user_id user_profile) stream_id topic
                         policy (clock db)]
        ∧ post (user_topics out.2)
        ∧ ∀ r, ¬ is_override_of (user_id user_profile) stream_id topic r →
               r ∈ user_topics out.2 ↔ r ∈ user_topics db
    end in
  if decide (policy = VisibilityPolicy.INHERIT) then
    resolved (RemovalLookup "Invalid channel ID")
      (λ rows,
         get_override rows (user_id user_profile) stream_id topic = None)
  else
    resolved Lookup
      (λ rows,
         ∃ r, get_override rows (user_id user_profile) stream_id topic = Some r
              ∧ visibility_policy r = policy
              ∧ last_updated r = clock db).
Proof.
  intros Hv. cbn zeta. rewrite (update_user_topic_resolved _ _ _ _ _ Hv).
  cbn zeta.
  destruct (decide (policy = VisibilityPolicy.INHERIT)) as [->|Hp];
    destruct (resolve_outcome db user_profile (ById stream_id) _)
      as [stream|e]; try done; cbn.
  - split; [done|]. split; [by rewrite <- app_assoc|]. split.
    + apply (get_override_cleared _ _ _ VisibilityPolicy.INHERIT).
    + intros r Hr. by apply set_policy_rows_frame.
  - split; [done|]. split; [by rewrite <- app_assoc|]. split.
    + by apply get_override_set.
    + intros r Hr. by apply set_policy_rows_frame.
Qed.

Lemma update_user_topic_resolves_then_sets_witness :
  (update_user_topic iago 1 "x" VisibilityPolicy.UNMUTED sample_db).1
    = Ok (json_success None)
  ∧ ∃ r,
      get_override
        (user_topics
           (update_user_topic iago 1 "x" VisibilityPolicy.UNMUTED sample_db).2)
        7 1 "x" = Some r
      ∧ visibility_policy r = VisibilityPolicy.UNMUTED
      ∧ last_updated r = 100.
Proof.
  assert (Hv : VisibilityPolicy.UNMUTED ∈ VisibilityPolicy.values).
  { apply (bool_decide_unpack _). vm_compute. reflexivity. }
  pose proof (update_user_topic_resolves_then_sets sample_db iago 1 "x"
                VisibilityPolicy.UNMUTED Hv) as H.
  cbn zeta in H.
  destruct (decide (VisibilityPolicy.UNMUTED = VisibilityPolicy.INHERIT))
    as [Heq|_]; [discriminate Heq|].
  change (resolve_outcome sample_db iago (ById 1) Lookup)
    with (Ok (A := Stream) (mkStream 1 "general" 10)) in H.
  destruct H as (H1 & _ & H2 & _). split; assumption.
Defined.

(** ** Failure and the override table *)

Lemma mute_topic_no_reference db user_profile topic date_muted :
  mute_topic user_profile None None topic date_muted db
  = (Raise AssertionError, db).
Proof. reflexivity. Qed.

Lemma unmute_topic_no_reference db user_profile topic :
  unmute_topic user_profile None None topic db = (Raise AssertionError, db).
Proof. reflexivity. Qed.

Lemma went_wrong_unresolved user_profile db e :
  went_wrong user_profile db (Raise e, db).
Proof. repeat split. by left. Qed.

Lemma went_wrong_resolved user_profile db e ref mode :
  went_wrong user_profile db
    (Raise e, add_log (EvResolve (user_id user_profile) ref mode) db).
Proof. repeat split. right. by exists ref, mode. Qed.

Lemma went_well_intro user_profile db a ref mode stream_id topic policy at_time :
  went_well user_profile db
    (Ok a,
     add_log (EvSetPolicy (user_id user_profile) stream_id topic policy at_time)
       (set_user_topics
          (set_policy_rows (user_topics db) (user_id user_profile) stream_id
             topic policy at_time)
          (add_log (EvResolve (user_id user_profile) ref mode) db))).
Proof.
  split; [done|]. exists ref, mode, stream_id, topic, policy, at_time.
  cbn. by rewrite <- app_assoc.
Qed.

(** Every invocation either fails, having at most resolved a stream and
    written nothing, or succeeds, having resolved a stream and then written
    one override. *)
Lemma invoke_resolves_before_writing db user_profile c :
  went_wrong user_profile db (invoke user_profile c db)
  ∨ went_well user_profile db (invoke user_profile c db).
Proof.
  destruct c as [stream_id stream_name topic date_muted
                |stream_id stream_name topic
                |stream_id stream topic op
                |stream_id topic policy]; unfold invoke.
  - destruct (stream_ref stream_id stream_name) as [ref|] eqn:Href.
    + unfold mbind, M_bind.
      rewrite (mute_topic_resolved _ _ _ _ _ _ _ Href).
      destruct (resolve_outcome db user_profile ref Lookup) as [s|e].
      * right. cbn. apply went_well_intro.
      * left. cbn. apply went_wrong_resolved.
    + destruct stream_name, stream_id; simplify_eq/=.
      left. apply went_wrong_unresolved.
  - destruct (stream_ref stream_id stream_name) as [ref|] eqn:Href.
    + unfold mbind, M_bind.
      rewrite (unmute_topic_resolved _ _ _ _ _ _ Href).
      destruct (resolve_outcome db user_profile ref _) as [s|e].
      * right. cbn. apply went_well_intro.
      * left. cbn. apply went_wrong_resolved.
    + destruct stream_name, stream_id; simplify_eq/=.
      left. apply went_wrong_unresolved.
  - unfold update_muted_topic, check_for_exactly_one_stream_arg.
    destruct stream_id as [i|], stream as [n|];
      try (left; apply went_wrong_unresolved).
    + unfold mbind, M_bind. cbn [mret M_ret].
      destruct op.
      * unfold timezone_now.
        rewrite (mute_topic_resolved _ _ (Some i) None _ _ (ById i) eq_refl).
        destruct (resolve_outcome db user_profile _ Lookup) as [s|e].
        -- right. cbn. apply went_well_intro.
        -- left. cbn. apply went_wrong_resolved.
      * rewrite (unmute_topic_resolved _ _ (Some i) None _ (ById i) eq_refl).
        destruct (resolve_outcome db user_profile _ _) as [s|e].
        -- right. cbn. apply went_well_intro.
        -- left. cbn. apply went_wrong_resolved.
    + unfold mbind, M_bind. cbn [mret M_ret].
      destruct op.
      * unfold timezone_now.
        rewrite (mute_topic_resolved _ _ None (Some n) _ _ (ByName n) eq_refl).
        destruct (resolve_outcome db user_profile _ Lookup) as [s|e].
        -- right. cbn. apply went_well_intro.
        -- left. cbn. apply went_wrong_resolved.
      * rewrite (unmute_topic_resolved _ _ None (Some n) _ (ByName n) eq_refl).
        destruct (resolve_outcome db user_profile _ _) as [s|e].
        -- right. cbn. apply went_well_intro.
        -- left. cbn. apply went_wrong_resolved.
  - unfold mbind, M_bind.
    destruct (decide (policy ∈ VisibilityPolicy.values)) as [Hv|Hv].
    + rewrite (update_user_topic_resolved _ _ _ _ _ Hv). cbn zeta.
      destruct (resolve_outcome db user_profile _ _) as [s|e].
      * right. cbn. apply went_well_intro.
      * left. cbn. apply went_wrong_resolved.
    + unfold update_user_topic. unfold mbind at 1, M_bind at 1.
      rewrite (check_int_in_validator_outside _ _ _ Hv).
      left. apply went_wrong_unresolved.
Qed.

(** No invocation breaks the uniqueness of the key of the override table. *)
Lemma invoke_preserves_unique db user_profile c :
  UserTopic_unique (user_topics db) →
  UserTopic_unique (user_topics (invoke user_profile c db).2).
Proof.
  intros Hu.
  destruct (invoke_resolves_before_writing db user_profile c)
    as [(_ & -> & _) | (_ & ref & mode & i & t & p & a & _ & ->)].
  - done.
  - by apply set_policy_rows_unique.
Qed.

(** C3.  A failing invocation of [mute_topic], [unmute_topic],
    [update_muted_topic] or [update_user_topic] leaves the override table as
    it was: no row is created, updated or deleted.  The trace of a failing
    invocation holds at most the resolution of the stream and no write, the
    validation of the arguments and the resolution coming before the one
    write of an invocation. *)
Theorem failing_invocation_writes_nothing db user_profile c :
  failed (invoke user_profile c db).1 = true →
  user_topics (invoke user_profile c db).2 = user_topics db
  ∧ (log (invoke user_profile c db).2 = log db
     ∨ ∃ ref mode,
         log (invoke user_profile c db).2
         = log db ++ [EvResolve (user_id user_profile) ref mode]).
Proof.
  intros Hfail.
  destruct (invoke_resolves_before_writing db user_profile c)
    as [(_ & Hrows & Hlog) | (Hok & _)].
  - by split.
  - by rewrite Hfail in Hok.
Qed.

Lemma failing_invocation_writes_nothing_witness :
  user_topics (invoke iago (CallUnmuteTopic (Some 2) None "b") sample_db).2
  = user_topics sample_db.
Proof.
  apply (failing_invocation_writes_nothing sample_db iago
           (CallUnmuteTopic (Some 2) None "b")).
  vm_compute. reflexivity.
Defined.

(** ** The assertions of [mute_topic] and [unmute_topic] *)






(** * Further properties of the views *)

(** ** The counts as a function of the tables *)

(** The response for a stream that exists, in terms of the set of its topic
    names. *)
Lemma get_stream_topic_counts_by_set db user_profile stream_id row :
  streams db !! stream_id = Some row →
  get_stream_topic_counts user_profile stream_id db =
    (Ok (json_success (Some
       (mkTopicCounts stream_id
          (size (stream_topics db (to_Stream stream_id row)))
          (length (filter
             (λ r, topic_name r ∈ stream_topics db (to_Stream stream_id row))
             (followed_rows (user_topics db) user_profile stream_id)))))),
     db).
Proof.
  intros Hrow. rewrite (get_stream_topic_counts_followed _ _ _ _ Hrow).
  do 5 f_equal.
  - apply length_remove_dups_size.
  - unfold followed_rows. rewrite list_filter_filter. f_equal.
    apply list_filter_iff. intros r. tauto.
Qed.

Lemma get_stream_topic_counts_missing db user_profile stream_id :
  streams db !! stream_id = None →
  get_stream_topic_counts user_profile stream_id db
  = (Ok (json_error "Invalid stream ID"), db).
Proof.
  intros Hrow. unfold get_stream_topic_counts, Stream_objects_get.
  unfold mbind, M_bind, mret, M_ret. by rewrite Hrow.
Qed.

(** X1.  With an override table that keeps its key unique, the followed
    count of a response never exceeds its total count. *)
Theorem followed_topics_le_total db user_profile stream_id counts :
  UserTopic_unique (user_topics db) →
  response_counts (get_stream_topic_counts user_profile stream_id db).1
    = Some counts →
  (followed_topics counts ≤ total_topics counts)%nat.
Proof.
  intros Huniq Hout.
  destruct (streams db !! stream_id) as [row|] eqn:Hrow.
  - rewrite (get_stream_topic_counts_by_set _ _ _ _ Hrow) in Hout.
    cbn in Hout. injection Hout as <-. cbn.
    set (names := stream_topics db (to_Stream stream_id row)).
    set (F := filter (λ r, topic_name r ∈ names) _).
    rewrite <- (length_fmap topic_name F).
    rewrite <- (size_list_to_set (C := gset string) (topic_name <$> F)).
    + apply subseteq_size. intros t.
      rewrite elem_of_list_to_set, list_elem_of_fmap.
      intros (r & -> & Hr). unfold F in Hr.
      by apply list_elem_of_filter in Hr as [Hr _].
    + apply (NoDup_fmap_coarser row_key).
      * intros r1 r2 H1 H2 Hname. unfold F, followed_rows in *.
        apply list_elem_of_filter in H1 as [_ H1].
        apply list_elem_of_filter in H2 as [_ H2].
        apply list_elem_of_filter in H1 as [(Hu1 & Hs1 & _) _].
        apply list_elem_of_filter in H2 as [(Hu2 & Hs2 & _) _].
        unfold row_key. by rewrite Hu1, Hu2, Hs1, Hs2, Hname.
      * eapply UserTopic_unique_sublist; [|exact Huniq].
        unfold F, followed_rows.
        etrans; apply sublist_filter.
  - by rewrite (get_stream_topic_counts_missing _ _ _ Hrow) in Hout.
Qed.

Lemma followed_topics_le_total_witness :
  (followed_topics (mkTopicCounts 1 3 1) ≤ total_topics (mkTopicCounts 1 3 1))%nat.
Proof.
  apply (followed_topics_le_total sample_db iago 1 (mkTopicCounts 1 3 1)).
  - exact sample_db_unique.
  - vm_compute. reflexivity.
Defined.

(** Without the uniqueness of the key the bound is lost: a row stored twice
    is counted twice. *)
Example followed_topics_doubled :
  response_counts (get_stream_topic_counts iago 1 doubled_db).1
  = Some (mkTopicCounts 1 1 2).
Proof. vm_compute. reflexivity. Qed.

(** X2.  For a stream to which no message was posted, both counts are 0,
    whatever overrides the user has in it. *)
Theorem get_stream_topic_counts_no_message db user_profile stream_id row :
  streams db !! stream_id = Some row →
  Forall (λ m, ¬ posted_to (to_Stream stream_id row) m) (messages db) →
  get_stream_topic_counts user_profile stream_id db
  = (Ok (json_success (Some (mkTopicCounts stream_id 0 0))), db).
Proof.
  intros Hrow Hnone.
  assert (Hempty : stream_topics db (to_Stream stream_id row) = ∅).
  { apply set_eq. intros t. unfold stream_topics.
    rewrite elem_of_list_to_set, list_elem_of_fmap. split; [|set_solver].
    intros (m & -> & [Hp Hm]%list_elem_of_filter).
    rewrite Forall_forall in Hnone. by destruct (Hnone m Hm). }
  rewrite (get_stream_topic_counts_by_set _ _ _ _ Hrow), Hempty.
  do 5 f_equal.
  apply length_zero_iff_nil, elem_of_nil_inv. intros r.
  rewrite list_elem_of_filter. intros [Hin _].
  by apply not_elem_of_empty in Hin.
Qed.

Lemma get_stream_topic_counts_no_message_witness :
  get_stream_topic_counts iago 1
    (mkDB {[ 1 := mkStreamRow "general" 10 ]} [] (λ _ _, true)
       [mkMessage 20 true "z"; mkMessage 10 false "direct"]
       [mkUserTopic 7 1 "z" VisibilityPolicy.FOLLOWED 0] 100 [])
  = (Ok (json_success (Some (mkTopicCounts 1 0 0))),
     mkDB {[ 1 := mkStreamRow "general" 10 ]} [] (λ _ _, true)
       [mkMessage 20 true "z"; mkMessage 10 false "direct"]
       [mkUserTopic 7 1 "z" VisibilityPolicy.FOLLOWED 0] 100 []).
Proof.
  apply (get_stream_topic_counts_no_message _ iago 1
           (mkStreamRow "general" 10)).
  - vm_compute. reflexivity.
  - apply (bool_decide_unpack _). vm_compute. reflexivity.
Defined.

(** X3.  The response depends on the override table only through the
    FOLLOWED overrides of the asking user in the asked stream: the overrides
    of other users, in other streams or of other policies do not enter. *)
Theorem get_stream_topic_counts_own_followed_rows db user_profile stream_id
    rows' :
  followed_rows rows' user_profile stream_id
    = followed_rows (user_topics db) user_profile stream_id →
  (get_stream_topic_counts user_profile stream_id (set_user_topics rows' db)).1
  = (get_stream_topic_counts user_profile stream_id db).1.
Proof.
  intros Hrows. destruct (streams db !! stream_id) as [row|] eqn:Hrow.
  - rewrite (get_stream_topic_counts_by_set (set_user_topics rows' db) _ _ row)
      by exact Hrow.
    rewrite (get_stream_topic_counts_by_set db _ _ row) by exact Hrow.
    cbn [fst user_topics set_user_topics]. by rewrite Hrows.
  - rewrite (get_stream_topic_counts_missing (set_user_topics rows' db))
      by exact Hrow.
    by rewrite (get_stream_topic_counts_missing db) by exact Hrow.
Qed.

Lemma get_stream_topic_counts_own_followed_rows_witness :
  (get_stream_topic_counts iago 1
     (set_user_topics
        [mkUserTopic 8 1 "a" VisibilityPolicy.FOLLOWED 5;
         mkUserTopic 7 1 "b" VisibilityPolicy.FOLLOWED 0;
         mkUserTopic 7 2 "c" VisibilityPolicy.FOLLOWED 5;
         mkUserTopic 7 1 "c" VisibilityPolicy.MUTED 5]
        sample_db)).1
  = (get_stream_topic_counts iago 1 sample_db).1.
Proof.
  apply (get_stream_topic_counts_own_followed_rows sample_db iago 1).
  vm_compute. reflexivity.
Defined.

(** The topic names of a stream after one more message. *)
Lemma stream_topics_add_message db stream m :
  stream_topics (add_message m db) stream
  = if decide (posted_to stream m)
    then {[ subject m ]} ∪ stream_topics db stream
    else stream_topics db stream.
Proof.
  unfold stream_topics, add_message. cbn [messages].
  rewrite filter_app, fmap_app, list_to_set_app_L.
  rewrite filter_cons, filter_nil.
  destruct (decide (posted_to stream m)); cbn.
  - rewrite (right_id_L ∅ (∪)). apply (comm_L (∪)).
  - apply (right_id_L ∅ (∪)).
Qed.

(** X4.  A message that is posted elsewhere, or posted to the stream under a
    topic name that the stream already has, changes nothing in the
    response. *)
Theorem get_stream_topic_counts_known_topic db user_profile stream_id row m :
  streams db !! stream_id = Some row →
  ¬ posted_to (to_Stream stream_id row) m
  ∨ subject m ∈ stream_topics db (to_Stream stream_id row) →
  (get_stream_topic_counts user_profile stream_id (add_message m db)).1
  = (get_stream_topic_counts user_profile stream_id db).1.
Proof.
  intros Hrow Hm.
  assert (Hsame : stream_topics (add_message m db) (to_Stream stream_id row)
                  = stream_topics db (to_Stream stream_id row)).
  { rewrite stream_topics_add_message.
    destruct (decide (posted_to _ m)) as [Hp|Hp]; [|done].
    destruct Hm as [Hm|Hm]; [done|].
    by apply subseteq_union_1_L, singleton_subseteq_l. }
  rewrite (get_stream_topic_counts_by_set (add_message m db) _ _ row)
    by exact Hrow.
  rewrite (get_stream_topic_counts_by_set db _ _ row) by exact Hrow.
  cbn [fst user_topics add_message]. by rewrite Hsame.
Qed.

Lemma get_stream_topic_counts_known_topic_witness :
  (get_stream_topic_counts iago 1
     (add_message (mkMessage 10 true "c") sample_db)).1
  = (get_stream_topic_counts iago 1 sample_db).1
  ∧ (get_stream_topic_counts iago 1
       (add_message (mkMessage 10 false "new") sample_db)).1
    = (get_stream_topic_counts iago 1 sample_db).1.
Proof.
  split.
  - apply (get_stream_topic_counts_known_topic sample_db iago 1
             (mkStreamRow "general" 10) (mkMessage 10 true "c")).
    + vm_compute. reflexivity.
    + right. apply (bool_decide_unpack _). vm_compute. reflexivity.
  - apply (get_stream_topic_counts_known_topic sample_db iago 1
             (mkStreamRow "general" 10) (mkMessage 10 false "new")).
    + vm_compute. reflexivity.
    + left. intros [_ Hch]. discriminate Hch.
Defined.

(** X5.  A message posted to the stream under a topic name that the stream
    does not have yet raises the total count by exactly one. *)
Theorem get_stream_topic_counts_new_topic db user_profile stream_id row m :
  streams db !! stream_id = Some row →
  posted_to (to_Stream stream_id row) m →
  subject m ∉ stream_topics db (to_Stream stream_id row) →
  ∃ before after,
    response_counts (get_stream_topic_counts user_profile stream_id db).1
      = Some before
    ∧ response_counts
        (get_stream_topic_counts user_profile stream_id (add_message m db)).1
      = Some after
    ∧ total_topics after = S (total_topics before).
Proof.
  intros Hrow Hp Hnew.
  rewrite (get_stream_topic_counts_by_set (add_message m db) _ _ row)
    by exact Hrow.
  rewrite (get_stream_topic_counts_by_set db _ _ row) by exact Hrow.
  eexists _, _. split; [reflexivity|]. split; [reflexivity|].
  cbn [total_topics]. rewrite stream_topics_add_message.
  destruct (decide (posted_to _ m)); [|done].
  rewrite size_union by by apply disjoint_singleton_l.
  by rewrite size_singleton.
Qed.

Lemma get_stream_topic_counts_new_topic_witness :
  ∃ before after,
    response_counts (get_stream_topic_counts iago 1 sample_db).1 = Some before
    ∧ response_counts
        (get_stream_topic_counts iago 1
           (add_message (mkMessage 10 true "d") sample_db)).1
      = Some after
    ∧ total_topics after = S (total_topics before).
Proof.
  apply (get_stream_topic_counts_new_topic sample_db iago 1
           (mkStreamRow "general" 10) (mkMessage 10 true "d")).
  - vm_compute. reflexivity.
  - split; reflexivity.
  - apply (bool_decide_unpack _). vm_compute. reflexivity.
Defined.

(** ** What an invocation leaves behind *)

Lemma effect_nothing user_profile db :
  effect_of_invocation user_profile db db.
Proof.
  exists (user_topics db), []. split; [|by left].
  destruct db. cbn. by rewrite app_nil_r.
Qed.

Lemma effect_resolution user_profile db e :
  effect_of_invocation user_profile db (add_log e db).
Proof. exists (user_topics db), [e]. split; [done | by left]. Qed.

Lemma effect_write user_profile db e1 e2 stream_id topic policy at_time :
  policy ∈ VisibilityPolicy.values →
  effect_of_invocation user_profile db
    (add_log e2
       (set_user_topics
          (set_policy_rows (user_topics db) (user_id user_profile) stream_id
             topic policy at_time)
          (add_log e1 db))).
Proof.
  intros Hv. eexists _, [e1; e2]. split.
  - unfold add_log, set_user_topics. cbn. by rewrite <- app_assoc.
  - right. by exists stream_id, topic, policy, at_time.
Qed.

Lemma MUTED_in_values : VisibilityPolicy.MUTED ∈ VisibilityPolicy.values.
Proof. apply (bool_decide_unpack _). vm_compute. reflexivity. Qed.

Lemma INHERIT_in_values : VisibilityPolicy.INHERIT ∈ VisibilityPolicy.values.
Proof. apply (bool_decide_unpack _). vm_compute. reflexivity. Qed.

Lemma mute_topic_effect db user_profile stream_id stream_name topic
    date_muted :
  effect_of_invocation user_profile db
    (mute_topic user_profile stream_id stream_name topic date_muted db).2.
Proof.
  destruct (stream_ref stream_id stream_name) as [ref|] eqn:Href.
  - rewrite (mute_topic_resolved _ _ _ _ _ _ _ Href).
    destruct (resolve_outcome db user_profile ref Lookup) as [s|e]; cbn.
    + apply effect_write, MUTED_in_values.
    + apply effect_resolution.
  - destruct stream_name, stream_id; simplify_eq/=. apply effect_nothing.
Qed.

Lemma unmute_topic_effect db user_profile stream_id stream_name topic :
  effect_of_invocation user_profile db
    (unmute_topic user_profile stream_id stream_name topic db).2.
Proof.
  destruct (stream_ref stream_id stream_name) as [ref|] eqn:Href.
  - rewrite (unmute_topic_resolved _ _ _ _ _ _ Href).
    destruct (resolve_outcome db user_profile ref _) as [s|e]; cbn.
    + apply effect_write, INHERIT_in_values.
    + apply effect_resolution.
  - destruct stream_name, stream_id; simplify_eq/=. apply effect_nothing.
Qed.

Lemma update_user_topic_effect db user_profile stream_id topic policy :
  effect_of_invocation user_profile db
    (update_user_topic user_profile stream_id topic policy db).2.
Proof.
  destruct (decide (policy ∈ VisibilityPolicy.values)) as [Hv|Hv].
  - rewrite (update_user_topic_resolved _ _ _ _ _ Hv). cbn zeta.
    destruct (resolve_outcome db user_profile _ _) as [s|e]; cbn.
    + by apply effect_write.
    + apply effect_resolution.
  - unfold update_user_topic. unfold mbind at 1, M_bind at 1.
    rewrite (check_int_in_validator_outside _ _ _ Hv). apply effect_nothing.
Qed.

Lemma update_muted_topic_effect db user_profile stream_id stream topic op :
  effect_of_invocation user_profile db
    (update_muted_topic user_profile stream_id stream topic op db).2.
Proof.
  unfold update_muted_topic, check_for_exactly_one_stream_arg.
  destruct stream_id as [i|], stream as [n|]; try apply effect_nothing;
    unfold mbind, M_bind; cbn [mret M_ret]; destruct op.
  - unfold timezone_now.
    pose proof (mute_topic_effect db user_profile (Some i) None topic
                  (clock db)) as H.
    by destruct (mute_topic _ _ _ _ _ db) as [[[]|e] db'].
  - pose proof (unmute_topic_effect db user_profile (Some i) None topic)
      as H.
    by destruct (unmute_topic _ _ _ _ db) as [[[]|e] db'].
  - unfold timezone_now.
    pose proof (mute_topic_effect db user_profile None (Some n) topic
                  (clock db)) as H.
    by destruct (mute_topic _ _ _ _ _ db) as [[[]|e] db'].
  - pose proof (unmute_topic_effect db user_profile None (Some n) topic)
      as H.
    by destruct (unmute_topic _ _ _ _ db) as [[[]|e] db'].
Qed.

Lemma invoke_effect db user_profile c :
  effect_of_invocation user_profile db (invoke user_profile c db).2.
Proof.
  destruct c as [stream_id stream_name topic date_muted
                |stream_id stream_name topic
                |stream_id stream topic op
                |stream_id topic policy]; unfold invoke, mbind, M_bind.
  - pose proof (mute_topic_effect db user_profile stream_id stream_name
                  topic date_muted) as H.
    by destruct (mute_topic _ _ _ _ _ db) as [[[]|e] db'].
  - pose proof (unmute_topic_effect db user_profile stream_id stream_name
                  topic) as H.
    by destruct (unmute_topic _ _ _ _ db) as [[[]|e] db'].
  - pose proof (update_muted_topic_effect db user_profile stream_id stream
                  topic op) as H.
    by destruct (update_muted_topic _ _ _ _ _ db) as [[r|e] db'].
  - pose proof (update_user_topic_effect db user_profile stream_id topic
                  policy) as H.
    by destruct (update_user_topic _ _ _ _ db) as [[r|e] db'].
Qed.

(** A selection of rows that holds no override of the written key is the
    same before and after the write. *)
Lemma filter_set_policy_rows_other (Q : UserTopic → Prop)
    `{!∀ r, Decision (Q r)} rows user stream_id topic policy at_time :
  (∀ r, Q r → ¬ is_override_of user stream_id topic r) →
  filter Q (set_policy_rows rows user stream_id topic policy at_time)
  = filter Q rows.
Proof.
  intros HQ. destruct (decide (policy = VisibilityPolicy.INHERIT)) as [Hp|Hp].
  { rewrite set_policy_rows_inherit by done. rewrite list_filter_filter.
    apply list_filter_iff. intros r. split; [tauto|]. intros Hr.
    split; [done|]. by apply HQ. }
  destruct (decide (Exists (is_override_of user stream_id topic) rows))
    as [Hex|Hex].
  - rewrite set_policy_rows_update by done. clear Hex.
    induction rows as [|r rows IH]; [done|].
    rewrite fmap_cons, !filter_cons, IH.
    destruct (decide (is_override_of user stream_id topic r)) as [HP|HP].
    + assert (Hq : ¬ Q (update_row user stream_id topic policy at_time r)).
      { intros Hq. apply (HQ _ Hq). unfold is_override_of.
        by rewrite upd_key. }
      assert (Hq' : ¬ Q r) by (intros Hq'; by apply (HQ _ Hq')).
      by rewrite !decide_False by done.
    + assert (Hr : update_row user stream_id topic policy at_time r = r).
      { unfold update_row.
        by destruct (decide (is_override_of user stream_id topic r)). }
      by rewrite Hr.
  - rewrite set_policy_rows_create by done.
    rewrite filter_app, filter_cons, filter_nil.
    destruct (decide (Q (mkUserTopic _ _ _ _ _))) as [Hq|Hq].
    + by destruct (HQ _ Hq).
    + apply app_nil_r.
Qed.

(** The response is a function of the streams, the messages and the FOLLOWED
    overrides of the asking user in the asked stream. *)
Lemma get_stream_topic_counts_ext db db' user_profile stream_id :
  streams db' = streams db →
  messages db' = messages db →
  followed_rows (user_topics db') user_profile stream_id
    = followed_rows (user_topics db) user_profile stream_id →
  (get_stream_topic_counts user_profile stream_id db').1
  = (get_stream_topic_counts user_profile stream_id db).1.
Proof.
  intros Hs Hm Hf. destruct (streams db !! stream_id) as [row|] eqn:Hrow.
  - rewrite (get_stream_topic_counts_by_set db' _ _ row) by by rewrite Hs.
    rewrite (get_stream_topic_counts_by_set db _ _ row) by done.
    unfold stream_topics. cbn [fst]. by rewrite Hm, Hf.
  - rewrite (get_stream_topic_counts_missing db') by by rewrite Hs.
    by rewrite (get_stream_topic_counts_missing db) by done.
Qed.

(** The total count is a function of the streams and the messages. *)
Lemma get_stream_topic_counts_total_ext db db' user_profile stream_id :
  streams db' = streams db →
  messages db' = messages db →
  total_topics <$>
    response_counts (get_stream_topic_counts user_profile stream_id db').1
  = total_topics <$>
      response_counts (get_stream_topic_counts user_profile stream_id db).1.
Proof.
  intros Hs Hm. destruct (streams db !! stream_id) as [row|] eqn:Hrow.
  - rewrite (get_stream_topic_counts_by_set db' _ _ row) by by rewrite Hs.
    rewrite (get_stream_topic_counts_by_set db _ _ row) by done.
    unfold stream_topics. cbn. by rewrite Hm.
  - rewrite (get_stream_topic_counts_missing db') by by rewrite Hs.
    by rewrite (get_stream_topic_counts_missing db) by done.
Qed.

(** X6.  An invocation of a user leaves the overrides of every other user as
    they were, row for row and in their order. *)
Theorem invoke_keeps_other_users db user_profile c :
  filter (λ r, ut_user_profile_id r ≠ user_id user_profile)
         (user_topics (invoke user_profile c db).2)
  = filter (λ r, ut_user_profile_id r ≠ user_id user_profile)
           (user_topics db).
Proof.
  destruct (invoke_effect db user_profile c)
    as (rows' & trace & -> & [-> | (i & t & p & a & _ & ->)]); cbn.
  - reflexivity.
  - apply filter_set_policy_rows_other. intros r Hne HP.
    apply Hne. unfold is_override_of, row_key in HP. by injection HP.
Qed.

(** X7.  An invocation of one user changes nothing in the response that
    [get_stream_topic_counts] gives to another user, for any stream. *)
Theorem invoke_keeps_counts_of_others db user_profile other c stream_id :
  user_id other ≠ user_id user_profile →
  (get_stream_topic_counts other stream_id (invoke user_profile c db).2).1
  = (get_stream_topic_counts other stream_id db).1.
Proof.
  intros Hne.
  destruct (invoke_effect db user_profile c)
    as (rows' & trace & -> & [-> | (i & t & p & a & _ & ->)]);
    apply get_stream_topic_counts_ext; try done.
  cbn. apply filter_set_policy_rows_other. intros r (Hu & _) HP.
  apply Hne. unfold is_override_of, row_key in HP.
  injection HP as Hu' _ _. by rewrite <- Hu, Hu'.
Qed.

Lemma invoke_keeps_counts_of_others_witness :
  (get_stream_topic_counts iago 1
     (invoke hamlet (CallUpdateUserTopic 1 "b" VisibilityPolicy.MUTED)
        (set_access (λ _ _, true) [] sample_db)).2).1
  = (get_stream_topic_counts iago 1
       (set_access (λ _ _, true) [] sample_db)).1.
Proof.
  apply (invoke_keeps_counts_of_others
           (set_access (λ _ _, true) [] sample_db) hamlet iago
           (CallUpdateUserTopic 1 "b" VisibilityPolicy.MUTED) 1).
  vm_compute. discriminate.
Defined.

(** X8.  No invocation changes the total count that
    [get_stream_topic_counts] reports for a stream, to whichever user: the
    views that write overrides write no message and no stream. *)
Theorem invoke_keeps_total_topics db user_profile c asking stream_id :
  total_topics <$>
    response_counts
      (get_stream_topic_counts asking stream_id
         (invoke user_profile c db).2).1
  = total_topics <$>
      response_counts (get_stream_topic_counts asking stream_id db).1.
Proof.
  destruct (invoke_effect db user_profile c)
    as (rows' & trace & -> & _).
  by apply get_stream_topic_counts_total_ext.
Qed.

(** ** Invariants of the override table *)

Lemma stored_policy_of_valid policy :
  policy ∈ VisibilityPolicy.values → policy ≠ VisibilityPolicy.INHERIT →
  policy ∈ stored_policies.
Proof.
  unfold VisibilityPolicy.values, stored_policies.
  rewrite !elem_of_cons. intros [->|H] Hp; [done | exact H].
Qed.

Lemma set_policy_rows_stored rows user stream_id topic policy at_time :
  policy ∈ VisibilityPolicy.values →
  Forall (λ r, visibility_policy r ∈ stored_policies) rows →
  Forall (λ r, visibility_policy r ∈ stored_policies)
    (set_policy_rows rows user stream_id topic policy at_time).
Proof.
  intros Hv Hrows.
  destruct (decide (policy = VisibilityPolicy.INHERIT)) as [Hp|Hp].
  { rewrite set_policy_rows_inherit by done.
    rewrite Forall_forall in *. intros r [_ Hr]%list_elem_of_filter. auto. }
  pose proof (stored_policy_of_valid _ Hv Hp) as Hs.
  destruct (decide (Exists (is_override_of user stream_id topic) rows))
    as [Hex|Hex].
  - rewrite set_policy_rows_update by done. rewrite Forall_fmap.
    eapply Forall_impl; [exact Hrows|]. intros r Hr. cbn. unfold update_row.
    by destruct (decide (is_override_of user stream_id topic r)).
  - rewrite set_policy_rows_create by done. apply Forall_app. split; [done|].
    by apply Forall_singleton.
Qed.

(** X9.  The uniqueness of the key of the override table survives every
    sequence of invocations, by whichever users and whether they succeed or
    fail. *)
Theorem invoke_all_keeps_unique calls db :
  UserTopic_unique (user_topics db) →
  UserTopic_unique (user_topics (invoke_all calls db)).
Proof.
  unfold invoke_all. revert db.
  induction calls as [|[u c] calls IH]; intros db Hu; [done|].
  cbn [foldl]. apply IH. cbn.
  destruct (invoke_effect db u c)
    as (rows' & trace & -> & [-> | (i & t & p & a & _ & ->)]); cbn.
  - done.
  - by apply set_policy_rows_unique.
Qed.

Lemma invoke_all_keeps_unique_witness :
  UserTopic_unique
    (user_topics
       (invoke_all
          [(iago, CallUpdateUserTopic 1 " B " VisibilityPolicy.MUTED);
           (iago, CallUpdateMutedTopic None (Some "general") "c" add);
           (hamlet, CallUnmuteTopic (Some 1) None "b")]
          sample_db)).
Proof.
  apply (invoke_all_keeps_unique _ sample_db). exact sample_db_unique.
Defined.

(** X10.  If every stored override holds MUTED, UNMUTED or FOLLOWED, so it
    does after every sequence of invocations: no invocation stores INHERIT
    or a code outside the enum. *)
Theorem invoke_all_keeps_stored_policies calls db :
  Forall (λ r, visibility_policy r ∈ stored_policies) (user_topics db) →
  Forall (λ r, visibility_policy r ∈ stored_policies)
    (user_topics (invoke_all calls db)).
Proof.
  unfold invoke_all. revert db.
  induction calls as [|[u c] calls IH]; intros db Hs; [done|].
  cbn [foldl]. apply IH. cbn.
  destruct (invoke_effect db u c)
    as (rows' & trace & -> & [-> | (i & t & p & a & Hv & ->)]); cbn.
  - done.
  - by apply set_policy_rows_stored.
Qed.

Lemma invoke_all_keeps_stored_policies_witness :
  Forall (λ r, visibility_policy r ∈ stored_policies)
    (user_topics
       (invoke_all
          [(iago, CallUpdateUserTopic 1 "x" 9);
           (iago, CallUpdateUserTopic 1 "b" VisibilityPolicy.INHERIT);
           (iago, CallMuteTopic (Some 1) None "c" 5)]
          sample_db)).
Proof.
  apply (invoke_all_keeps_stored_policies _ sample_db).
  apply (bool_decide_unpack _). vm_compute. reflexivity.
Defined.

(** ** Following every topic *)

(** With a unique key, the followed rows whose names are listed are as many
    as the listed topics that the user follows. *)
Lemma followed_rows_listed_size db user_profile stream_id row :
  UserTopic_unique (user_topics db) →
  length (filter
            (λ r, topic_name r ∈ stream_topics db (to_Stream stream_id row))
            (followed_rows (user_topics db) user_profile stream_id))
  = size (followed_stream_topics db user_profile (to_Stream stream_id row)).
Proof.
  intros Huniq.
  rewrite <- (UserTopic_filter_names_set db user_profile _ _
                (distinct_subjects_spec db (to_Stream stream_id row))).
  rewrite size_list_to_set by by apply UserTopic_filter_NoDup_names.
  rewrite length_fmap. f_equal.
  unfold followed_rows, UserTopic_filter. rewrite list_filter_filter.
  apply list_filter_iff. intros r.
  pose proof (distinct_subjects_spec db (to_Stream stream_id row)
                (topic_name r)) as Hspec.
  cbn in *. rewrite Hspec. tauto.
Qed.

(** X11.  With an override table that keeps its key unique, the followed
    count of a response equals its total count exactly when the user has a
    FOLLOWED override record for every topic name of the stream. *)
Theorem followed_topics_eq_total_iff db user_profile stream_id row counts :
  streams db !! stream_id = Some row →
  UserTopic_unique (user_topics db) →
  response_counts (get_stream_topic_counts user_profile stream_id db).1
    = Some counts →
  followed_topics counts = total_topics counts
  ↔ ∀ topic,
      topic ∈ stream_topics db (to_Stream stream_id row) →
      has_policy_record (user_topics db) user_profile
        (to_Stream stream_id row) VisibilityPolicy.FOLLOWED topic.
Proof.
  intros Hrow Huniq Hout.
  rewrite (get_stream_topic_counts_by_set _ _ _ _ Hrow) in Hout.
  cbn in Hout. injection Hout as <-. cbn [followed_topics total_topics].
  rewrite followed_rows_listed_size by done.
  unfold followed_stream_topics.
  set (S := stream_topics db (to_Stream stream_id row)).
  set (P := has_policy_record _ _ _ _).
  assert (Hsub : filter P S ⊆ S).
  { intros t Ht. by apply elem_of_filter in Ht as [_ Ht]. }
  split.
  - intros Hsize t Ht.
    assert (Heq : filter P S ≡ S).
    { apply set_subseteq_size_equiv; [done|]. by rewrite Hsize. }
    apply Heq in Ht. by apply elem_of_filter in Ht as [Ht _].
  - intros Hall. f_equal. apply set_eq. intros t.
    rewrite elem_of_filter. split; [tauto|]. intros Ht. split; [|done].
    by apply Hall.
Qed.

Lemma followed_topics_eq_total_iff_witness :
  followed_topics (mkTopicCounts 1 3 1) = total_topics (mkTopicCounts 1 3 1)
  ↔ ∀ topic,
      topic ∈ stream_topics sample_db (to_Stream 1 (mkStreamRow "general" 10)) →
      has_policy_record (user_topics sample_db) iago
        (to_Stream 1 (mkStreamRow "general" 10)) VisibilityPolicy.FOLLOWED
        topic.
Proof.
  apply (followed_topics_eq_total_iff sample_db iago 1
           (mkStreamRow "general" 10) (mkTopicCounts 1 3 1)).
  - vm_compute. reflexivity.
  - exact sample_db_unique.
  - vm_compute. reflexivity.
Defined.

(** ** The two endpoints that write overrides *)

Lemma FOLLOWED_in_values : VisibilityPolicy.FOLLOWED ∈ VisibilityPolicy.values.
Proof. apply (bool_decide_unpack _). vm_compute. reflexivity. Qed.

Lemma resolve_outcome_lookup_inv db user_profile ref stream :
  resolve_outcome db user_profile ref Lookup = Ok stream →
  get_stream db ref = Some stream
  ∧ can_access db (user_id user_profile) (id stream) = true.
Proof.
  unfold resolve_outcome.
  destruct (get_stream db ref) as [s|]; [|done].
  destruct (can_access db _ (id s)) eqn:Ha; [|done].
  by intros [= <-].
Qed.

(** The message of a removal lookup decides nothing but the message of its
    failure. *)
Lemma resolve_outcome_removal_message db user_profile ref error1 error2 :
  match resolve_outcome db user_profile ref (RemovalLookup error1),
        resolve_outcome db user_profile ref (RemovalLookup error2) with
  | Ok s1, Ok s2 => s1 = s2
  | Raise _, Raise _ => True
  | _, _ => False
  end.
Proof.
  unfold resolve_outcome.
  destruct (get_stream db ref) as [s|]; [|done].
  destruct (can_access db _ (id s)); [|done].
  by destruct (decide (has_override_in _ _ _)).
Qed.

(** What [update_muted_topic] does with a stream id and no stream name. *)
Lemma update_muted_topic_by_id db user_profile stream_id topic op :
  update_muted_topic user_profile (Some stream_id) None topic op db
  = match op with
    | add =>
        match mute_topic user_profile (Some stream_id) None topic (clock db)
                db with
        | (Ok _, db') => (Ok (json_success None), db')
        | (Raise e, db') => (Raise e, db')
        end
    | remove =>
        match unmute_topic user_profile (Some stream_id) None topic db with
        | (Ok _, db') => (Ok (json_success None), db')
        | (Raise e, db') => (Raise e, db')
        end
    end.
Proof.
  unfold update_muted_topic, check_for_exactly_one_stream_arg, timezone_now.
  unfold mbind, M_bind. cbn [mret M_ret]. destruct op.
  - by destruct (mute_topic _ _ _ _ _ db) as [[[]|e] db'].
  - by destruct (unmute_topic _ _ _ _ db) as [[[]|e] db'].
Qed.


(** X13.  Unmuting a topic through [update_muted_topic], with op remove and
    a stream id, and setting the policy INHERIT through [update_user_topic]
    succeed or fail together and leave the same override table; they differ
    in the message they hand to the removal lookup. *)
Theorem update_muted_topic_remove_like_update_user_topic db user_profile
    stream_id topic :
  failed (update_muted_topic user_profile (Some stream_id) None topic remove
            db).1
  = failed (update_user_topic user_profile stream_id topic
              VisibilityPolicy.INHERIT db).1
  ∧ user_topics
      (update_muted_topic user_profile (Some stream_id) None topic remove
         db).2
    = user_topics
        (update_user_topic user_profile stream_id topic
           VisibilityPolicy.INHERIT db).2.
Proof.
  rewrite update_muted_topic_by_id.
  rewrite (update_user_topic_resolved _ _ _ _ _ INHERIT_in_values). cbn zeta.
  rewrite (unmute_topic_resolved _ _ (Some stream_id) None _ (ById stream_id)
             eq_refl).
  destruct (decide (VisibilityPolicy.INHERIT = VisibilityPolicy.INHERIT))
    as [_|Hne]; [|done].
  pose proof (resolve_outcome_removal_message db user_profile (ById stream_id)
                "Topic is not muted" "Invalid channel ID") as Hmsg.
  destruct (resolve_outcome db user_profile (ById stream_id)
              (RemovalLookup "Topic is not muted")) as [s1|e1] eqn:H1;
    destruct (resolve_outcome db user_profile (ById stream_id)
                (RemovalLookup "Invalid channel ID")) as [s2|e2] eqn:H2;
    try done.
  subst s2. apply resolve_outcome_by_id in H1. by subst.
Qed.

(** ** Writing and reading back *)

(** Deleting the override of a key right after creating it gives the table
    back. *)
Lemma set_policy_rows_create_delete rows user stream_id topic policy at_time
    at_time' :
  policy ≠ VisibilityPolicy.INHERIT →
  ¬ Exists (is_override_of user stream_id topic) rows →
  set_policy_rows
    (set_policy_rows rows user stream_id topic policy at_time)
    user stream_id topic VisibilityPolicy.INHERIT at_time'
  = rows.
Proof.
  intros Hp Hex. rewrite (set_policy_rows_create _ _ _ _ _ rows) by done.
  rewrite (set_policy_rows_inherit _ _ _ VisibilityPolicy.INHERIT) by done.
  rewrite filter_app, filter_cons, filter_nil.
  rewrite decide_False by (intros Hn; apply Hn; reflexivity).
  rewrite app_nil_r. clear Hp.
  induction rows as [|r rows IH]; [done|].
  rewrite filter_cons. rewrite decide_True.
  - f_equal. apply IH. intros H. apply Hex. by right.
  - intros HP. apply Hex. by left.
Qed.

(** X14.  When the user has no override for a topic, muting it with
    [mute_topic] and then unmuting it with [unmute_topic], under the same
    stream reference, succeeds and gives the override table back as it
    was. *)
Theorem mute_then_unmute_restores db user_profile stream_id stream_name topic
    date_muted ref stream :
  stream_ref stream_id stream_name = Some ref →
  resolve_outcome db user_profile ref Lookup = Ok stream →
  get_override (user_topics db) (user_id user_profile) (id stream) topic
    = None →
  (unmute_topic user_profile stream_id stream_name topic
     (mute_topic user_profile stream_id stream_name topic date_muted db).2).1
  = Ok ()
  ∧ user_topics
      (unmute_topic user_profile stream_id stream_name topic
         (mute_topic user_profile stream_id stream_name topic date_muted
            db).2).2
    = user_topics db.
Proof.
  intros Href Hres Hnone. apply get_override_None_not_exists in Hnone.
  rewrite (mute_topic_resolved _ _ _ _ _ _ _ Href), Hres. cbn [snd].
  rewrite (unmute_topic_resolved _ _ _ _ _ _ Href).
  apply resolve_outcome_lookup_inv in Hres as [Hs Ha].
  set (db1 := add_log _ (set_user_topics _ _)).
  assert (Hres1 : resolve_outcome db1 user_profile ref
                    (RemovalLookup "Topic is not muted") = Ok stream).
  { unfold resolve_outcome.
    change (get_stream db1 ref) with (get_stream db ref).
    change (can_access db1) with (can_access db). rewrite Hs, Ha.
    rewrite decide_True; [done|].
    unfold has_override_in, db1. cbn [user_topics add_log set_user_topics].
    rewrite set_policy_rows_create by done.
    apply Exists_app. right. apply Exists_cons. by left. }
  rewrite Hres1. cbn [fst snd]. split; [done|].
  unfold db1. cbn [user_topics add_log set_user_topics clock].
  by apply set_policy_rows_create_delete.
Qed.

Lemma mute_then_unmute_restores_witness :
  (unmute_topic iago None (Some "general") "c"
     (mute_topic iago None (Some "general") "c" 5 sample_db).2).1
  = Ok ()
  ∧ user_topics
      (unmute_topic iago None (Some "general") "c"
         (mute_topic iago None (Some "general") "c" 5 sample_db).2).2
    = user_topics sample_db.
Proof.
  apply (mute_then_unmute_restores sample_db iago None (Some "general") "c" 5
           (ByName "general") (mkStream 1 "general" 10)).
  - reflexivity.
  - vm_compute. reflexivity.
  - vm_compute. reflexivity.
Defined.

(** X15.  When the user may access the stream and has no override for one of
    its topic names, following that topic with [update_user_topic] raises
    the followed count that [get_stream_topic_counts] reports by exactly one
    and leaves the total count as it was. *)
Theorem follow_listed_topic_counts db user_profile stream_id row topic :
  streams db !! stream_id = Some row →
  can_access db (user_id user_profile) stream_id = true →
  topic ∈ stream_topics db (to_Stream stream_id row) →
  get_override (user_topics db) (user_id user_profile) stream_id topic
    = None →
  ∃ before after,
    response_counts (get_stream_topic_counts user_profile stream_id db).1
      = Some before
    ∧ response_counts
        (get_stream_topic_counts user_profile stream_id
           (update_user_topic user_profile stream_id topic
              VisibilityPolicy.FOLLOWED db).2).1
      = Some after
    ∧ followed_topics after = S (followed_topics before)
    ∧ total_topics after = total_topics before.
Proof.
  intros Hrow Ha Hlisted Hnone. apply get_override_None_not_exists in Hnone.
  rewrite (update_user_topic_resolved _ _ _ _ _ FOLLOWED_in_values). cbn zeta.
  destruct (decide (VisibilityPolicy.FOLLOWED = VisibilityPolicy.INHERIT))
    as [Heq|_]; [discriminate Heq|].
  assert (Hres : resolve_outcome db user_profile (ById stream_id) Lookup
                 = Ok (to_Stream stream_id row)).
  { unfold resolve_outcome. cbn. rewrite Hrow. cbn. by rewrite Ha. }
  rewrite Hres. cbn [snd].
  set (db1 := add_log _ (set_user_topics _ _)).
  rewrite (get_stream_topic_counts_by_set db _ _ row) by exact Hrow.
  rewrite (get_stream_topic_counts_by_set db1 _ _ row) by exact Hrow.
  eexists _, _. split; [reflexivity|]. split; [reflexivity|].
  split; [|reflexivity].
  cbn [followed_topics].
  change (stream_topics db1 (to_Stream stream_id row))
    with (stream_topics db (to_Stream stream_id row)).
  unfold db1. cbn [user_topics add_log set_user_topics].
  rewrite set_policy_rows_create by done.
  unfold followed_rows. rewrite filter_app, filter_cons, filter_nil.
  rewrite decide_True by done.
  rewrite filter_app, filter_cons, filter_nil.
  rewrite decide_True by done.
  rewrite length_app. cbn. lia.
Qed.

Lemma follow_listed_topic_counts_witness :
  ∃ before after,
    response_counts (get_stream_topic_counts iago 1 sample_db).1 = Some before
    ∧ response_counts
        (get_stream_topic_counts iago 1
           (update_user_topic iago 1 "c" VisibilityPolicy.FOLLOWED
              sample_db).2).1
      = Some after
    ∧ followed_topics after = S (followed_topics before)
    ∧ total_topics after = total_topics before.
Proof.
  apply (follow_listed_topic_counts sample_db iago 1
           (mkStreamRow "general" 10) "c").
  - vm_compute. reflexivity.
  - reflexivity.
  - apply (bool_decide_unpack _). vm_compute. reflexivity.
  - vm_compute. reflexivity.
Defined.

(** X16.  An invocation touches the overrides of at most one key: there are
    a stream and a topic such that every override of another key is in the
    table afterwards exactly as before, in the same order. *)
Theorem invoke_touches_one_key db user_profile c :
  ∃ stream_id topic,
    filter (λ r, ¬ is_override_of (user_id user_profile) stream_id topic r)
           (user_topics (invoke user_profile c db).2)
    = filter (λ r, ¬ is_override_of (user_id user_profile) stream_id topic r)
             (user_topics db).
Proof.
  destruct (invoke_effect db user_profile c)
    as (rows' & trace & -> & [-> | (i & t & p & a & _ & ->)]); cbn.
  - by exists 0, "".
  - exists i, t. by apply filter_set_policy_rows_other.
Qed.
